(** * ydb-dataclass: type registry, field binder, record transformer and
      statement builder

    A shallow embedding of [src/ydb_dataclass/types.py], [decorator.py] and
    [queries.py], followed by the properties of the specification that were
    checked against it.

    Conventions of the embedding.
    - Python [str] is [string]; an f-string is a chain of [+:+];
      [sep.join(xs)] is [String.concat sep xs].
    - A [dict] whose iteration order is observable (the annotations of a
      class, [_ydb_fields], a [where] mapping) is an association list in
      insertion order; a [dict] that is only looked up ([data], [kwargs], the
      attributes of a class) is a [gmap string _].
    - Code that can raise returns a [result]; code with no [raise] on any path
      is a total function into its value type. *)

From Stdlib Require Import Ascii String List ZArith DecimalString.
From Stdlib Require DecimalNat DecimalPos DecimalZ.
From stdpp Require Import base option list gmap strings.

Local Open Scope string_scope.
Local Open Scope Z_scope.

(** ** Python values and text *)

(** The native values that flow through the library. [VObj] is any other
    object, known only by its identity. *)
#[warnings="-register-all"]
Inductive pyval :=
| VNone
| VBool (b : bool)
| VInt (z : Z)
| VStr (s : string)
| VList (items : list pyval)
| VTuple (items : list pyval)
| VObj (id : nat).

Module Py.

(** [str(n)] for an [int]: decimal digits, with a leading minus sign. *)
Definition str_of_Z (z : Z) : string := NilZero.string_of_int (Z.to_int z).

(** [str(i)] for the index of a [range]. *)
Definition str_of_nat (n : nat) : string := NilZero.string_of_uint (Nat.to_uint n).

(** [s.replace(old, new)] for a non-empty [old]: the occurrences of [old] are
    replaced from left to right, and a replaced occurrence is skipped before
    the search resumes. [skip] counts the characters of the current occurrence
    still to drop. *)
Fixpoint replace_from (old new : string) (skip : nat) (s : string) : string :=
  match s with
  | EmptyString => EmptyString
  | String c rest =>
      match skip with
      | S k => replace_from old new k rest
      | O =>
          if String.prefix old s
          then new +:+ replace_from old new (Nat.pred (String.length old)) rest
          else String c (replace_from old new 0 rest)
      end
  end.

Definition replace (s old new : string) : string := replace_from old new 0 s.

(** Truth value of a container argument that may be [None]: [if xs:] holds for
    a non-empty container only. *)
Definition truthy {A} (xs : option (list A)) : bool :=
  match xs with
  | Some (_ :: _) => true
  | _ => false
  end.

End Py.

(** ** types.py *)

Module Types.

(** The Python type a store type maps to ([python_type]); [PyAny] is
    [typing.Any]. *)
Inductive pytype := PyInt | PyStr | PyBytes | PyFloat | PyBool | PyAny.

(** The constructor of the [ydb] client a type converts with ([ydb_value]). *)
Inductive ydb_ctor :=
| ydb_Int64 | ydb_Uint64 | ydb_Utf8 | ydb_String | ydb_Double | ydb_Bool
| ydb_Timestamp | ydb_Json | ydb_Date | ydb_Datetime | ydb_Interval
| ydb_Decimal (precision scale : Z).

(** The classes nested in [YDBMeta]: one constructor per class, [decimal] with
    the arguments of its [__init__], [Optional] with its [inner_type]. *)
Inductive YDBType :=
| YDB_int64
| YDB_uint64
| YDB_utf8
| YDB_string
| YDB_double
| YDB_bool
| YDB_timestamp
| YDB_json
| YDB_date
| YDB_datetime
| YDB_interval
| YDB_decimal (precision scale : Z)
| Optional (inner_type : YDBType).

#[global] Instance pytype_eq_dec : EqDecision pytype.
Proof. solve_decision. Defined.

#[global] Instance YDBType_eq_dec : EqDecision YDBType.
Proof. solve_decision. Defined.

(** The attribute [python_type] as each [__init__] sets it. *)
Fixpoint python_type (t : YDBType) : pytype :=
  match t with
  | YDB_int64 => PyInt
  | YDB_uint64 => PyInt
  | YDB_utf8 => PyStr
  | YDB_string => PyBytes
  | YDB_double => PyFloat
  | YDB_bool => PyBool
  | YDB_timestamp => PyInt
  | YDB_json => PyStr
  | YDB_date => PyInt
  | YDB_datetime => PyInt
  | YDB_interval => PyInt
  | YDB_decimal _ _ => PyStr
  | Optional inner_type => python_type inner_type
  end.

(** The attribute [ydb_type], the store-type name. *)
Fixpoint ydb_type (t : YDBType) : string :=
  match t with
  | YDB_int64 => "Int64"
  | YDB_uint64 => "Uint64"
  | YDB_utf8 => "Utf8"
  | YDB_string => "String"
  | YDB_double => "Double"
  | YDB_bool => "Bool"
  | YDB_timestamp => "Timestamp"
  | YDB_json => "Json"
  | YDB_date => "Date"
  | YDB_datetime => "Datetime"
  | YDB_interval => "Interval"
  | YDB_decimal precision scale =>
      "Decimal(" +:+ Py.str_of_Z precision +:+ ", " +:+ Py.str_of_Z scale +:+ ")"
  | Optional inner_type => "Optional<" +:+ ydb_type inner_type +:+ ">"
  end.

(** The attribute [ydb_value], the native-to-store converter. *)
Fixpoint ydb_value (t : YDBType) : ydb_ctor :=
  match t with
  | YDB_int64 => ydb_Int64
  | YDB_uint64 => ydb_Uint64
  | YDB_utf8 => ydb_Utf8
  | YDB_string => ydb_String
  | YDB_double => ydb_Double
  | YDB_bool => ydb_Bool
  | YDB_timestamp => ydb_Timestamp
  | YDB_json => ydb_Json
  | YDB_date => ydb_Date
  | YDB_datetime => ydb_Datetime
  | YDB_interval => ydb_Interval
  | YDB_decimal precision scale => ydb_Decimal precision scale
  | Optional inner_type => ydb_value inner_type
  end.

(** [isinstance(t, YDB.Optional)]. *)
Definition is_Optional (t : YDBType) : bool :=
  match t with
  | Optional _ => true
  | _ => false
  end.

(** [YDB.optional(inner_type)]: [return YDB.Optional(inner_type)]. *)
Definition optional (inner_type : YDBType) : YDBType := Optional inner_type.

(** [YDB.decimal(precision, scale)]; the defaults are 22 and 9. *)
Definition decimal (precision scale : Z) : YDBType := YDB_decimal precision scale.

End Types.

(** ** decorator.py *)

Module Decorator.

Import Types.

(** *** Annotations *)

(** What [get_type_hints] returns for an attribute. [AYDB t] is the object of
    the YDB namespace that [t] names (the class [YDB.int64] for [YDB_int64]);
    [ANoneType] is [type(None)]; [APy n] is any other object that is not a
    typing construct ([int], [str], a user class); [AGeneric o args] is a
    typing construct, with [get_origin] = [o] and [get_args] = [args]:
    [typing.Optional[X]] is [AGeneric "Union" [X; ANoneType]]. *)
#[warnings="-register-all"]
Inductive annotation :=
| AYDB (t : YDBType)
| ANoneType
| APy (name : string)
| AGeneric (origin : string) (args : list annotation).

Definition get_origin (t : annotation) : option string :=
  match t with
  | AGeneric origin _ => Some origin
  | _ => None
  end.

Definition get_args (t : annotation) : list annotation :=
  match t with
  | AGeneric _ args => args
  | _ => []
  end.

(** [t is attr], for [attr] an attribute of the YDB namespace. *)
Definition is_attr (t : annotation) (attr : YDBType) : bool :=
  match t with
  | AYDB t' => bool_decide (t' = attr)
  | _ => false
  end.

(** [a == type(None)]. *)
Definition is_NoneType (a : annotation) : bool :=
  match a with
  | ANoneType => true
  | _ => false
  end.

(** [typing.Optional[t]]. *)
Definition typing_Optional (t : annotation) : annotation :=
  AGeneric "Union" [t; ANoneType].

(** *** Exceptions and results *)

Inductive exn :=
(** [_extract_ydb_type]: the [TypeError] raised for a type [t] that does not
    resolve, the specification's UnsupportedTypeError. *)
| TypeError_not_ydb_type (t : annotation)
(** [dataclasses.fields(cls)] on a class that carries no
    [__dataclass_fields__]. *)
| TypeError_not_a_dataclass
(** [for name, field in fields(cls)]: a [Field] object does not unpack. *)
| TypeError_cannot_unpack_Field
(** [dataclass]: a mutable default value. *)
| ValueError_mutable_default (name : string)
(** [dataclass]: [order=True] with [eq=False]. *)
| ValueError_order_without_eq
(** [dataclass]: a field without default after a field with one. *)
| TypeError_non_default_follows_default (name : string)
(** [from_dict]: the [ValueError] raised for the required field [name], the
    specification's MissingFieldError. *)
| ValueError_missing_field (name : string)
(** [cls( **kwargs)]: required arguments of the generated [__init__] that were
    not passed. *)
| TypeError_missing_arguments (names : list string)
(** [cls( **kwargs)]: a keyword that [__init__] does not take. *)
| TypeError_unexpected_keyword
(** An exception that escapes an access of [from_ydb_row] to the row or to
    one of its values: any exception but [AttributeError] out of [hasattr] and
    [getattr], any but [KeyError] and [TypeError] out of [row[name]]. *)
| RowError.

Inductive result (A : Type) :=
| Ok (a : A)
| Raise (e : exn).

Arguments Ok {A} a.
Arguments Raise {A} e.

Definition bind {A B} (r : result A) (k : A -> result B) : result B :=
  match r with
  | Ok a => k a
  | Raise e => Raise e
  end.

Notation "x <- r ;; k" := (bind r (fun x => k))
  (at level 100, r at next level, right associativity).

Definition raises {A} (r : result A) : Prop :=
  match r with
  | Ok _ => False
  | Raise _ => True
  end.

(** *** YDBFieldInfo *)

(** [_get_python_type]. Every [YDBType] has the attribute [python_type], so
    the fallback [return Any] is reached by no value of this type. *)
Fixpoint _get_python_type (ydb_type : YDBType) : pytype :=
  match ydb_type with
  | Optional inner_type => _get_python_type inner_type
  | _ => python_type ydb_type
  end.

(** [field_default = None] is the sentinel [...] (no default). *)
Record YDBFieldInfo := {
  field_name : string;
  field_ydb_type : YDBType;
  field_default : option pyval;
  field_python_type : pytype
}.

(** [YDBFieldInfo.__init__(self, name, ydb_type, default=...)]. *)
Definition YDBFieldInfo_init (name : string) (ydb_type : YDBType)
    (default : option pyval) : YDBFieldInfo :=
  {| field_name := name;
     field_ydb_type := ydb_type;
     field_default := default;
     field_python_type := _get_python_type ydb_type |}.

(** *** Ordered dictionaries *)

(** [d[k] = v] on a dictionary in insertion order: an existing key keeps its
    place, a new key goes last. *)
Fixpoint odict_set {A} (d : list (string * A)) (k : string) (v : A)
    : list (string * A) :=
  match d with
  | [] => [(k, v)]
  | (k', v') :: rest =>
      if decide (k' = k) then (k, v) :: rest else (k', v') :: odict_set rest k v
  end.

Definition keys {A} (d : list (string * A)) : list string := map fst d.

(** *** Type resolution *)

Section Registry.

(** The type registry: the attributes [attr] of [YDB] that the scans of
    [_is_ydb_type] and [_extract_ydb_type] accept, those for which
    [isinstance(attr, type) and hasattr(attr, 'python_type')] holds, in the
    order of [dir(YDB)]. Which attributes these are is decided by types.py and
    by the Python runtime, not by these two functions: they are embedded over
    an arbitrary registry, and the properties below are proved for every
    registry. The registry of a run under CPython is named at the end of this
    module. *)
Variable registry : list YDBType.

Definition _is_ydb_type (t : annotation) : bool :=
  if existsb (is_attr t) registry then true
  else
    match get_origin t with
    | Some _ =>
        match get_args t with
        | [inner_type; a1] =>
            if is_NoneType a1 then existsb (is_attr inner_type) registry
            else false
        | _ => false
        end
    | None => false
    end.

Definition _extract_ydb_type (t : annotation) : result YDBType :=
  match find (is_attr t) registry with
  | Some attr => Ok attr
  | None =>
      match get_origin t with
      | Some _ =>
          match get_args t with
          | [inner_type; a1] =>
              if is_NoneType a1 then
                match find (is_attr inner_type) registry with
                | Some attr => Ok (optional attr)
                | None => Raise (TypeError_not_ydb_type t)
                end
              else Raise (TypeError_not_ydb_type t)
          | _ => Raise (TypeError_not_ydb_type t)
          end
      | None => Raise (TypeError_not_ydb_type t)
      end
  end.

(** *** The decorator *)

(** The keyword arguments of [ydb_dataclass]. *)
Record Options := {
  opt_init : bool;
  opt_repr : bool;
  opt_eq : bool;
  opt_order : bool
}.

Definition default_options : Options :=
  {| opt_init := true; opt_repr := true; opt_eq := true; opt_order := false |}.

(** The class handed to the decorator: its type hints in declaration order,
    its class-level attributes ([hasattr(cls, name)] / [getattr(cls, name)]),
    and the names of the fields [dataclasses.fields(cls)] finds, [None] when
    the class has no [__dataclass_fields__] (it is not, and does not derive
    from, a dataclass). *)
Record Shape := {
  annotations : list (string * annotation);
  attrs : gmap string pyval;
  dataclass_fields : option (list string)
}.

(** The first loop of [wrap]: [ydb_fields] and [python_annotations]. *)
Fixpoint collect_fields (items : list (string * annotation))
    (ydb_fields : list (string * YDBFieldInfo))
    (python_annotations : list (string * pytype))
    : result (list (string * YDBFieldInfo) * list (string * pytype)) :=
  match items with
  | [] => Ok (ydb_fields, python_annotations)
  | (name, type_annotation) :: rest =>
      if _is_ydb_type type_annotation then
        ydb_type <- _extract_ydb_type type_annotation ;;
        collect_fields rest
          (odict_set ydb_fields name (YDBFieldInfo_init name ydb_type None))
          (odict_set python_annotations name (python_type ydb_type))
      else collect_fields rest ydb_fields python_annotations
  end.

(** The second loop of [wrap], [for name, field in fields(cls)]: [fields]
    raises on a class without [__dataclass_fields__], and the loop target
    unpacks each [Field] into two names, which raises on the first one. The
    body, which would store [getattr(cls, name)], is reached by no class, so
    [field_defaults] stays empty. *)
Definition capture_defaults (cls : Shape) : result (gmap string pyval) :=
  match dataclass_fields cls with
  | None => Raise TypeError_not_a_dataclass
  | Some [] => Ok ∅
  | Some (_ :: _) => Raise TypeError_cannot_unpack_Field
  end.

(** A field of the generated dataclass. *)
Record DataclassField := {
  dc_name : string;
  dc_type : pytype;
  dc_default : option pyval
}.

Definition is_mutable (v : pyval) : bool :=
  match v with
  | VList _ => true
  | _ => false
  end.

(** The check of the generated [__init__]'s signature: once a field has a
    default, every later field needs one. *)
Fixpoint check_order (seen_default : bool) (fs : list DataclassField) : result unit :=
  match fs with
  | [] => Ok tt
  | f :: rest =>
      match dc_default f with
      | Some _ => check_order true rest
      | None =>
          if seen_default then Raise (TypeError_non_default_follows_default (dc_name f))
          else check_order seen_default rest
      end
  end.

(** [dataclass(cls, init=.., repr=.., eq=.., order=..)] once
    [cls.__annotations__] is [python_annotations]: one field per annotation,
    its default the class attribute of that name. [fields(cls)] returned no
    field, so no field is inherited. *)
Definition dataclass (python_annotations : list (string * pytype))
    (class_attrs : gmap string pyval) (opts : Options)
    : result (list DataclassField) :=
  let fs := map (fun '(n, ty) =>
                   {| dc_name := n; dc_type := ty; dc_default := class_attrs !! n |})
                python_annotations in
  match find (fun f => from_option is_mutable false (dc_default f)) fs with
  | Some f => Raise (ValueError_mutable_default (dc_name f))
  | None =>
      if opt_order opts && negb (opt_eq opts) then Raise ValueError_order_without_eq
      else if opt_init opts then (_ <- check_order false fs ;; Ok fs)
      else Ok fs
  end.

(** The class the decorator returns. *)
Record BoundClass := {
  _ydb_fields : list (string * YDBFieldInfo);
  dc_fields : list DataclassField;
  dc_init : bool;
  dc_attrs : gmap string pyval
}.

(** [wrap(cls)]. *)
Definition wrap (opts : Options) (cls : Shape) : result BoundClass :=
  collected <- collect_fields (annotations cls) [] [] ;;
  let '(ydb_fields, python_annotations) := collected in
  field_defaults <- capture_defaults cls ;;
  (* setattr(cls, name, default_value) for each captured default *)
  let class_attrs := field_defaults ∪ attrs cls in
  fs <- dataclass python_annotations class_attrs opts ;;
  Ok {| _ydb_fields := ydb_fields;
        dc_fields := fs;
        dc_init := opt_init opts;
        dc_attrs := class_attrs |}.

End Registry.

(** *** Record construction *)

(** A record instance: its attribute values. *)
Abbreviation Instance := (gmap string pyval).

(** The argument the generated [__init__] receives for a field: the keyword
    of its name, else its default. *)
Definition argument (kwargs : gmap string pyval) (f : DataclassField) : option pyval :=
  match kwargs !! dc_name f with
  | Some v => Some v
  | None => dc_default f
  end.

(** The assignment [self.name = name] of [__init__], for a field that has an
    argument. *)
Definition attribute (kwargs : gmap string pyval) (f : DataclassField)
    : option (string * pyval) :=
  pair (dc_name f) <$> argument kwargs f.

(** [cls( **kwargs)]. With [init=True] the generated [__init__] takes one
    parameter per field, required unless the field has a default, and stores
    each argument on the instance; with [init=False] the class takes no
    argument. *)
Definition construct (cls : BoundClass) (kwargs : gmap string pyval) : result Instance :=
  if dc_init cls then
    if bool_decide (dom kwargs ⊆ list_to_set (map dc_name (dc_fields cls)))
    then
      match filter (fun f => kwargs !! dc_name f = None ∧ dc_default f = None)
                   (dc_fields cls) with
      | [] => Ok (list_to_map (omap (attribute kwargs) (dc_fields cls)))
      | missing => Raise (TypeError_missing_arguments (map dc_name missing))
      end
    else Raise TypeError_unexpected_keyword
  else
    if bool_decide (kwargs = ∅) then Ok ∅ else Raise TypeError_unexpected_keyword.

(** *** from_dict *)

Fixpoint from_dict_kwargs (fields : list (string * YDBFieldInfo))
    (data : gmap string pyval) (kwargs : gmap string pyval)
    : result (gmap string pyval) :=
  match fields with
  | [] => Ok kwargs
  | (name, field) :: rest =>
      match data !! name with
      | Some v => from_dict_kwargs rest data (<[name := v]> kwargs)
      | None =>
          match field_default field with
          | Some d => from_dict_kwargs rest data (<[name := d]> kwargs)
          | None => Raise (ValueError_missing_field name)
          end
      end
  end.

Definition from_dict (cls : BoundClass) (data : gmap string pyval) : result Instance :=
  kwargs <- from_dict_kwargs (_ydb_fields cls) data ∅ ;;
  construct cls kwargs.

(** *** from_ydb_row *)

(** What an attribute access answers, as [hasattr] sees it: the value of the
    attribute; [AttributeError], which [hasattr] turns into [False]; or
    another exception, which neither [hasattr] nor [getattr] catches. *)
Inductive access (A : Type) :=
| Has (a : A)
| Lacks
| Escapes.

Arguments Has {A} a.
Arguments Lacks {A}.
Arguments Escapes {A}.

(** A value of the store client. [w_is_null] is the test
    [hasattr(raw_value, 'is_null') and raw_value.is_null()]: what the method
    answers, that there is no such method, or that the test raises.
    [w_is_Null] is [isinstance(raw_value, ydb.Null)]; [w_attr] gives the
    attributes. *)
Record Wrapper := {
  w_id : nat;
  w_is_null : access bool;
  w_is_Null : bool;
  w_attr : string -> access pyval
}.

(** The value a row holds for a column: a plain Python value, which has none
    of the attributes the read path looks for, or a value of the client. *)
Inductive rawvalue :=
| Plain (v : pyval)
| Wrapped (w : Wrapper).

(** The attributes tried on a raw value, in the order of the [elif] chain. *)
Definition representations : list string :=
  ["int_value"; "uint_value"; "utf8_value"; "bytes_value"; "double_value";
   "bool_value"; "uint64_value"; "int64_value"; "microseconds"; "text"].

(** The [elif hasattr(raw_value, n): kwargs[name] = raw_value.n] chain. *)
Fixpoint first_attr (w : Wrapper) (names : list string) : result (option pyval) :=
  match names with
  | [] => Ok None
  | n :: rest =>
      match w_attr w n with
      | Has v => Ok (Some v)
      | Lacks => first_attr w rest
      | Escapes => Raise RowError
      end
  end.

(** The conversion chain of [from_ydb_row]. *)
Definition to_python (raw_value : rawvalue) : result pyval :=
  match raw_value with
  | Plain v => Ok v
  | Wrapped w =>
      match w_is_null w with
      | Escapes => Raise RowError
      | Has true => Ok VNone
      | _ =>
          if w_is_Null w then Ok VNone
          else
            found <- first_attr w representations ;;
            Ok (match found with
                | Some v => v
                | None => VObj (w_id w)
                end)
      end
  end.

(** What [row[name]] does. *)
Inductive getitem_outcome :=
| Item (raw_value : rawvalue)
| KeyError
| TypeError
| OtherError.

(** A row: [row_getattr] is what [hasattr(row, name)] and [getattr(row, name)]
    meet; [row_getitem] is what [hasattr(row, '__getitem__')] meets, and the
    subscription when it is there. *)
Record Row := {
  row_getattr : string -> access rawvalue;
  row_getitem : access (string -> getitem_outcome)
}.

(** The three outcomes of reading one field off a row: a value, nothing (the
    loop [continue]s), or an exception that escapes. The two [hasattr] tests
    and [getattr] stand outside the [try], which catches [KeyError] and
    [TypeError] out of [row[name]] only. *)
Definition row_read (row : Row) (name : string) : result (option rawvalue) :=
  match row_getattr row name with
  | Has raw_value => Ok (Some raw_value)
  | Escapes => Raise RowError
  | Lacks =>
      match row_getitem row with
      | Has getitem =>
          match getitem name with
          | Item raw_value => Ok (Some raw_value)
          | KeyError | TypeError => Ok None
          | OtherError => Raise RowError
          end
      | Lacks => Ok None
      | Escapes => Raise RowError
      end
  end.

Fixpoint from_ydb_row_kwargs (fields : list (string * YDBFieldInfo)) (row : Row)
    (kwargs : gmap string pyval) : result (gmap string pyval) :=
  match fields with
  | [] => Ok kwargs
  | (name, field) :: rest =>
      found <- row_read row name ;;
      match found with
      | Some raw_value =>
          value <- to_python raw_value ;;
          from_ydb_row_kwargs rest row (<[name := value]> kwargs)
      | None => from_ydb_row_kwargs rest row kwargs
      end
  end.

Definition from_ydb_row (cls : BoundClass) (row : Row) : result Instance :=
  kwargs <- from_ydb_row_kwargs (_ydb_fields cls) row ∅ ;;
  construct cls kwargs.

(** The registry of a run in which the scans accept no attribute. CPython is
    such a run: [dir] of a class lists the attributes of the class and of its
    bases and not those of its metaclass, where types.py declares the type
    classes, and [python_type] is set by [__init__] on instances, not on the
    classes. *)
Definition empty_registry : list YDBType := [].

(** *** The write path: get_ydb_value and to_ydb_dict *)

(** A value of the store client as the write path builds it: [ydb.Null()], or
    the call of a converter of [ydb] on a native value. The converters belong
    to the client and are not run: the call is kept as it is written. *)
Inductive ydbvalue :=
| YNull
| YValue (converter : ydb_ctor) (value : pyval).

(** [YDBFieldInfo.get_ydb_value(self, value)]. The test [value is None]
    comes first, so its repetition under the [Optional] test is reached by no
    value; every [YDBType] has the attribute [ydb_value], so the last line,
    [ydb.Utf8(str(value))], is reached by no field. *)
Definition get_ydb_value (field : YDBFieldInfo) (value : pyval) : ydbvalue :=
  match value with
  | VNone => YNull
  | _ =>
      if is_Optional (field_ydb_type field)
      then YValue (ydb_value (field_ydb_type field)) value
      else YValue (ydb_value (field_ydb_type field)) value
  end.

(** [getattr(self, name)] on a record: the attribute of the instance, else
    the attribute of its class; [None] is [AttributeError]. *)
Definition getattr (cls : BoundClass) (self : Instance) (name : string)
    : option pyval :=
  match self !! name with
  | Some v => Some v
  | None => dc_attrs cls !! name
  end.

(** What [to_ydb_dict] does: it returns a dictionary, or the [AttributeError]
    of [getattr(self, name)] escapes. *)
Inductive attr_result (A : Type) :=
| Got (a : A)
| AttributeError (name : string).

Arguments Got {A} a.
Arguments AttributeError {A} name.

(** The loop of [to_ydb_dict]. *)
Fixpoint to_ydb_dict_items (fields : list (string * YDBFieldInfo))
    (cls : BoundClass) (self : Instance) (result : list (string * ydbvalue))
    : attr_result (list (string * ydbvalue)) :=
  match fields with
  | [] => Got result
  | (name, field) :: rest =>
      match getattr cls self name with
      | Some value =>
          to_ydb_dict_items rest cls self
            (odict_set result name (get_ydb_value field value))
      | None => AttributeError name
      end
  end.

(** [to_ydb_dict(self)]. *)
Definition to_ydb_dict (cls : BoundClass) (self : Instance)
    : attr_result (list (string * ydbvalue)) :=
  to_ydb_dict_items (_ydb_fields cls) cls self [].

(** *** get_ydb_schema *)

(** [get_ydb_schema(cls)], with the class attribute [_ydb_schema] passed in
    and out: [None] until the first call, which fills it; the call returns a
    copy of it. *)
Definition get_ydb_schema (fields : list (string * YDBFieldInfo))
    (_ydb_schema : option (list (string * string)))
    : list (string * string) * option (list (string * string)) :=
  let schema :=
    match _ydb_schema with
    | None => map (fun '(name, field) => (name, ydb_type (field_ydb_type field))) fields
    | Some schema => schema
    end in
  (schema, Some schema).

End Decorator.

(** ** queries.py *)

Module Queries.

Import Decorator.

(** The clause [generate_where_clause] appends for one item of
    [conditions]. *)
Definition condition_clause (field : string) (value : pyval) : string :=
  match value with
  | VNone => field +:+ " IS NULL"
  | VList items | VTuple items =>
      let placeholders :=
        String.concat ", "
          (map (fun i => "$" +:+ field +:+ "_" +:+ Py.str_of_nat i)
               (seq 0 (length items))) in
      field +:+ " IN (" +:+ placeholders +:+ ")"
  | _ => field +:+ " = $" +:+ field
  end.

(** [generate_where_clause(conditions)]: the loop appends one clause per item
    to [clauses], which are then joined. *)
Definition generate_where_clause (conditions : list (string * pyval)) : string :=
  let clauses :=
    fold_left (fun clauses '(field, value) =>
                 (clauses ++ [condition_clause field value])%list)
              conditions [] in
  String.concat " AND " clauses.

(** [insert_query(table_name, ydb_fields, on_conflict=None)]. *)
Definition insert_query (table_name : string)
    (ydb_fields : list (string * YDBFieldInfo)) (on_conflict : option string)
    : string :=
  let columns := keys ydb_fields in
  let placeholders := map (fun col => "$" +:+ col) columns in
  let columns_str := String.concat ", " columns in
  let placeholders_str := String.concat ", " placeholders in
  let query :=
    "INSERT INTO `" +:+ table_name +:+ "` (" +:+ columns_str +:+ ") VALUES ("
      +:+ placeholders_str +:+ ")" in
  if decide (on_conflict = Some "REPLACE") then
    Py.replace query "INSERT" "REPLACE"
  else if decide (on_conflict = Some "UPDATE") then
    "UPSERT INTO `" +:+ table_name +:+ "` (" +:+ columns_str +:+ ") VALUES ("
      +:+ placeholders_str +:+ ")"
  else query.

(** [upsert_query(table_name, ydb_fields)]. *)
Definition upsert_query (table_name : string)
    (ydb_fields : list (string * YDBFieldInfo)) : string :=
  let columns := keys ydb_fields in
  let placeholders := map (fun col => "$" +:+ col) columns in
  let columns_str := String.concat ", " columns in
  let placeholders_str := String.concat ", " placeholders in
  "UPSERT INTO `" +:+ table_name +:+ "` (" +:+ columns_str +:+ ") VALUES ("
    +:+ placeholders_str +:+ ")".

(** [select_query(table_name, ydb_fields=None, where=None, order_by=None,
    limit=None, offset=None, columns=None)]. Each [query += ...] of the source
    is one rebinding of [query]. *)
Definition select_query (table_name : string)
    (ydb_fields : option (list (string * YDBFieldInfo)))
    (where_ : option (list (string * pyval)))
    (order_by : option (list string))
    (limit offset : option Z)
    (columns : option (list string)) : string :=
  let columns_str :=
    if Py.truthy columns then String.concat ", " (default [] columns)
    else if Py.truthy ydb_fields then String.concat ", " (keys (default [] ydb_fields))
    else "*" in
  let query := "SELECT " +:+ columns_str +:+ " FROM `" +:+ table_name +:+ "`" in
  let query :=
    if Py.truthy where_ then
      let where_clause := generate_where_clause (default [] where_) in
      query +:+ (" WHERE " +:+ where_clause)
    else query in
  let query :=
    if Py.truthy order_by then
      let order_str := String.concat ", " (default [] order_by) in
      query +:+ (" ORDER BY " +:+ order_str)
    else query in
  let query :=
    match limit with
    | Some l =>
        let query := query +:+ (" LIMIT " +:+ Py.str_of_Z l) in
        match offset with
        | Some o => query +:+ (" OFFSET " +:+ Py.str_of_Z o)
        | None => query
        end
    | None => query
    end in
  query.

(** [update_query(table_name, ydb_fields, where=None, update_fields=None)]. *)
Definition update_query (table_name : string)
    (ydb_fields : list (string * YDBFieldInfo))
    (where_ : option (list (string * pyval)))
    (update_fields : option (list string)) : string :=
  let all_fields := keys ydb_fields in
  let set_fields :=
    if Py.truthy update_fields
    then filter (fun f => f ∈ all_fields) (default [] update_fields)
    else all_fields in
  let set_clauses := map (fun field => field +:+ " = $" +:+ field) set_fields in
  let set_clause := String.concat ", " set_clauses in
  let query := "UPDATE `" +:+ table_name +:+ "` SET " +:+ set_clause in
  let query :=
    if Py.truthy where_ then
      let where_clause := generate_where_clause (default [] where_) in
      query +:+ (" WHERE " +:+ where_clause)
    else query in
  query.

(** [delete_query(table_name, where)]. *)
Definition delete_query (table_name : string) (where_ : list (string * pyval))
    : string :=
  let query := "DELETE FROM `" +:+ table_name +:+ "`" in
  let query :=
    match where_ with
    | _ :: _ =>
        let where_clause := generate_where_clause where_ in
        query +:+ (" WHERE " +:+ where_clause)
    | [] => query
    end in
  query.

(** *** create_table_query *)

(** The line feed of the f-strings. *)
Definition nl : string := String "010"%char EmptyString.

(** [if s:] on a [str]. *)
Definition nonempty (s : string) : bool :=
  match s with
  | EmptyString => false
  | String _ _ => true
  end.

(** [create_table_query(table_name, ydb_fields, primary_key=None,
    partition_by=None, indexes=None)]. *)
Definition create_table_query (table_name : string)
    (ydb_fields : list (string * YDBFieldInfo))
    (primary_key partition_by : option (list string))
    (indexes : option (list (string * list string))) : string :=
  let columns :=
    fold_left (fun columns '(name, field) =>
                 (columns ++ ["  " +:+ name +:+ " "
                                +:+ Types.ydb_type (field_ydb_type field)])%list)
              ydb_fields [] in
  let partition_clause :=
    if Py.truthy partition_by then
      let partition_fields := String.concat ", " (default [] partition_by) in
      nl +:+ "  PARTITION BY (" +:+ partition_fields +:+ ")"
    else "" in
  let pk_clause :=
    if Py.truthy primary_key then
      let pk_fields := String.concat ", " (default [] primary_key) in
      nl +:+ "  PRIMARY KEY (" +:+ pk_fields +:+ ")"
    else "" in
  let indexes_clause :=
    if Py.truthy indexes then
      let index_definitions :=
        fold_left (fun index_definitions '(index_name, index_fields) =>
                     let fields_str := String.concat ", " index_fields in
                     (index_definitions
                        ++ ["  INDEX " +:+ index_name +:+ " GLOBAL ON ("
                              +:+ fields_str +:+ ")"])%list)
                  (default [] indexes) [] in
      nl +:+ String.concat nl index_definitions
    else "" in
  let columns_str := String.concat ("," +:+ nl) columns in
  let query := "CREATE TABLE `" +:+ table_name +:+ "` (" +:+ nl +:+ columns_str in
  let query := if nonempty pk_clause then query +:+ ("," +:+ pk_clause) else query in
  let query :=
    if nonempty partition_clause then query +:+ ("," +:+ partition_clause) else query in
  let query :=
    if nonempty indexes_clause then query +:+ ("," +:+ indexes_clause) else query in
  let query := query +:+ (nl +:+ ")") in
  query.

(** *** prepare_params *)

(** The argument [data]: a dictionary, or a list of dictionaries. *)
Inductive params_data :=
| DataDict (d : list (string * pyval))
| DataList (rows : list (list (string * pyval))).

(** [enumerate(xs)]. *)
Definition enumerate {A} (xs : list A) : list (nat * A) :=
  combine (seq 0 (length xs)) xs.

(** The parameter name [f"{key}_{i}"]. *)
Definition indexed (key : string) (i : nat) : string :=
  key +:+ "_" +:+ Py.str_of_nat i.

(** [prepare_params(data, where=None)]. *)
Definition prepare_params (data : params_data)
    (where_ : option (list (string * pyval))) : gmap string pyval :=
  let params : gmap string pyval := ∅ in
  let params :=
    match data with
    | DataDict d =>
        fold_left (fun params '(key, value) => <[key := value]> params) d params
    | DataList rows =>
        fold_left (fun params '(i, item) =>
                     fold_left (fun params '(key, value) =>
                                  <[indexed key i := value]> params)
                               item params)
                  (enumerate rows) params
    end in
  let params :=
    if Py.truthy where_ then
      fold_left (fun params '(key, value) =>
                   match value with
                   | VList items | VTuple items =>
                       fold_left (fun params '(i, v) => <[indexed key i := v]> params)
                                 (enumerate items) params
                   | _ => <[key := value]> params
                   end)
                (default [] where_) params
    else params in
  params.

End Queries.

(** * Notions used to state the properties *)

Module Notions.

Import Types Decorator Queries.

(** ** Statements *)

(** The column list: the explicit columns when there are some, else the field
    names of the binding set when there are some, else the wildcard. *)
Definition select_columns (columns : option (list string))
    (ydb_fields : option (list (string * YDBFieldInfo))) : string :=
  match columns, ydb_fields with
  | Some (c :: cs), _ => String.concat ", " (c :: cs)
  | _, Some (f :: fs) => String.concat ", " (keys (f :: fs))
  | _, _ => "*"
  end.

(** The WHERE clause: present for a non-empty predicate only. *)
Definition where_part (where_ : option (list (string * pyval))) : string :=
  match where_ with
  | Some (c :: cs) => " WHERE " +:+ generate_where_clause (c :: cs)
  | _ => ""
  end.

(** The ORDER BY clause: present for a non-empty ordering only. *)
Definition order_part (order_by : option (list string)) : string :=
  match order_by with
  | Some (o :: os) => " ORDER BY " +:+ String.concat ", " (o :: os)
  | _ => ""
  end.

(** LIMIT, then OFFSET; no OFFSET without a LIMIT. *)
Definition limit_part (limit offset : option Z) : string :=
  match limit, offset with
  | Some l, Some o => " LIMIT " +:+ Py.str_of_Z l +:+ " OFFSET " +:+ Py.str_of_Z o
  | Some l, None => " LIMIT " +:+ Py.str_of_Z l
  | None, _ => ""
  end.

(** Whether the character [c] is one of [s]. *)
Fixpoint has_char (c : Ascii.ascii) (s : string) : bool :=
  match s with
  | EmptyString => false
  | String x rest => Ascii.eqb c x || has_char c rest
  end.

(** Whether [old] occurs in [s]. *)
Fixpoint occurs (old s : string) : bool :=
  match s with
  | EmptyString => String.prefix old s
  | String _ rest => String.prefix old s || occurs old rest
  end.

Definition clean (s : string) : Prop := occurs "INSERT" s = false.

(** ** Binding and construction *)

(** What the loop keeps true of its two dictionaries. *)
Definition collected (ydb_fields : list (string * YDBFieldInfo))
    (python_annotations : list (string * pytype)) : Prop :=
  keys ydb_fields = keys python_annotations
  /\ NoDup (keys ydb_fields)
  /\ Forall (fun e => field_name e.2 = e.1 /\ field_default e.2 = None) ydb_fields.

(** The field the generated dataclass gets for one entry of
    [python_annotations]. *)
Definition dataclass_field (class_attrs : gmap string pyval) (e : string * pytype)
    : DataclassField :=
  {| dc_name := e.1; dc_type := e.2; dc_default := class_attrs !! e.1 |}.

(** The keyword of a field in [from_dict]: the supplied value, else the
    default held by the field's [YDBFieldInfo]. *)
Definition supplied_or_default (data : gmap string pyval) (field : YDBFieldInfo)
    : option pyval :=
  match data !! field_name field with
  | Some v => Some v
  | None => field_default field
  end.


(** ** The write path *)

(** The store value of a native value under a type: the null of the store
    for [None], the converter of the type applied to the value otherwise. *)
Definition store_value (t : YDBType) (value : pyval) : ydbvalue :=
  match value with
  | VNone => YNull
  | _ => YValue (ydb_value t) value
  end.

(** ** CREATE TABLE *)

(** The line of a column, given its name and its store-type name. *)
Definition column_line (e : string * string) : string :=
  "  " +:+ e.1 +:+ " " +:+ e.2.

(** The line of an index. *)
Definition index_line (e : string * list string) : string :=
  "  INDEX " +:+ e.1 +:+ " GLOBAL ON (" +:+ String.concat ", " e.2 +:+ ")".

Definition primary_key_part (primary_key : option (list string)) : string :=
  match primary_key with
  | Some (k :: ks) => "," +:+ nl +:+ "  PRIMARY KEY (" +:+ String.concat ", " (k :: ks) +:+ ")"
  | _ => EmptyString
  end.

Definition partition_part (partition_by : option (list string)) : string :=
  match partition_by with
  | Some (k :: ks) => "," +:+ nl +:+ "  PARTITION BY (" +:+ String.concat ", " (k :: ks) +:+ ")"
  | _ => EmptyString
  end.

Definition indexes_part (indexes : option (list (string * list string))) : string :=
  match indexes with
  | Some (i :: rest) => "," +:+ nl +:+ String.concat nl (map index_line (i :: rest))
  | _ => EmptyString
  end.

(** ** Parameters *)

(** The dictionary that assigning the items in order builds: the last value
    of a key stays. *)
Definition dict_of (items : list (string * pyval)) : gmap string pyval :=
  list_to_map (reverse items).

(** A value that is neither a list nor a tuple. *)
Definition scalar (value : pyval) : bool :=
  match value with
  | VList _ | VTuple _ => false
  | _ => true
  end.

(** The parameter names that the clause of a condition mentions. *)
Definition placeholders (c : string * pyval) : list string :=
  match c.2 with
  | VNone => []
  | VList items | VTuple items => map (indexed c.1) (seq 0 (length items))
  | _ => [c.1]
  end.

End Notions.

(** * Example classes and rows *)

Module Examples.

Import Types Decorator.

(** A class that derives from an empty dataclass and mixes a store-mapped
    attribute with two plain ones:
    [id: YDB.int64], [note: int], [tag: Optional[int]]. *)
Definition mixed_shape : Shape :=
  {| annotations := [("id", AYDB YDB_int64); ("note", APy "int");
                     ("tag", typing_Optional (APy "int"))];
     attrs := ∅;
     dataclass_fields := Some [] |}.

(** A class with a class-level default, deriving from an empty dataclass:
    [id: YDB.int64], [n: YDB.int64 = 5]. *)
Definition counter_shape : Shape :=
  {| annotations := [("id", AYDB YDB_int64); ("n", AYDB YDB_int64)];
     attrs := {[ "n" := VInt 5 ]};
     dataclass_fields := Some [] |}.

(** The binding set of [counter_shape], had [wrap] passed the class default of
    [n] to its [YDBFieldInfo]. *)
Definition counter_fields_with_default : list (string * YDBFieldInfo) :=
  [("id", YDBFieldInfo_init "id" YDB_int64 None);
   ("n", YDBFieldInfo_init "n" YDB_int64 (Some (VInt 5)))].

(** A class with an optional attribute and no default, deriving from an empty
    dataclass: [id: YDB.int64], [email: Optional[YDB.utf8]]. *)
Definition contact_shape : Shape :=
  {| annotations := [("id", AYDB YDB_int64); ("email", typing_Optional (AYDB YDB_utf8))];
     attrs := ∅;
     dataclass_fields := Some [] |}.


(** A class object that carries a binding set, written out as an assignment
    to [cls._ydb_fields] gives it: [id] of type [int64] and [email] of type
    [Optional] of [utf8], each [YDBFieldInfo] built from an instance of its
    type, and a record factory that takes the two fields. *)
Definition contact_class : BoundClass :=
  {| _ydb_fields := [("id", YDBFieldInfo_init "id" YDB_int64 None);
                     ("email", YDBFieldInfo_init "email" (Optional YDB_utf8) None)];
     dc_fields := [{| dc_name := "id"; dc_type := PyInt; dc_default := None |};
                   {| dc_name := "email"; dc_type := PyStr; dc_default := None |}];
     dc_init := true;
     dc_attrs := ∅ |}.



End Examples.

(** * Properties *)

(** ** Text *)

Section Text.

Lemma append_assoc (a b c : string) : (a +:+ b) +:+ c = a +:+ (b +:+ c).
Proof.
  induction a as [|x a IH]; [reflexivity |].
  change (String x ((a +:+ b) +:+ c) = String x (a +:+ (b +:+ c))).
  now rewrite IH.
Qed.

Lemma append_nil_r (a : string) : a +:+ "" = a.
Proof.
  induction a as [|x a IH]; [reflexivity |].
  change (String x (a +:+ "") = String x a).
  now rewrite IH.
Qed.

(** The [i]-th element of [[f k for k in range(n)]]. *)
Lemma lookup_map_seq {B} (f : nat -> B) (n start i : nat) :
  (i < n)%nat -> map f (seq start n) !! i = Some (f (start + i)%nat).
Proof.
  revert start i; induction n as [|n IH]; intros start i Hi; [lia |].
  destruct i as [|i]; simpl.
  - now rewrite Nat.add_0_r.
  - rewrite IH by lia. f_equal. f_equal. lia.
Qed.

End Text.

(** Two texts built from the same pieces, grouped differently. *)
Ltac same_text := rewrite ?append_assoc, ?append_nil_r; reflexivity.

(** ** types.py *)

Module TypesFacts.

Import Types.

(** C5, counterexample: wrapping an optional type a second time is accepted
    and keeps both wrappers; the store-type name is the nested one. *)
Lemma optional_of_optional_is_nested :
  ydb_type (optional (optional YDB_int64)) = "Optional<Optional<Int64>>"
  /\ optional (optional YDB_int64) <> optional YDB_int64.
Proof. split; [reflexivity | discriminate]. Qed.

(** C5, as amended: [YDB.optional] wraps every type it is given, an optional
    one included. The wrapper's store-type name is the inner name inside
    [Optional<...>], its Python type and converter are the inner type's, and
    a second wrapper is neither flattened away nor rejected. *)
Theorem optional_wraps_without_flattening (t : YDBType) :
  ydb_type (optional t) = "Optional<" +:+ ydb_type t +:+ ">"
  /\ python_type (optional t) = python_type t
  /\ ydb_value (optional t) = ydb_value t
  /\ is_Optional (optional t) = true
  /\ optional (optional t) <> optional t
  /\ ydb_type (optional (optional t)) = "Optional<Optional<" +:+ ydb_type t +:+ ">>".
Proof.
  repeat split; try reflexivity.
  - unfold optional. intros H. injection H as H.
    induction t; try discriminate. injection H as H. auto.
  - unfold optional. cbn [ydb_type].
    change "Optional<Optional<" with ("Optional<" +:+ "Optional<").
    change ">>" with (">" +:+ ">").
    now rewrite !append_assoc.
Qed.

End TypesFacts.

(** ** queries.py *)

Module QueriesFacts.

Import Decorator Queries Notions.

(** The clauses, as the loop of [generate_where_clause] collects them. *)
Lemma where_clauses_loop (conditions : list (string * pyval)) (acc : list string) :
  fold_left (fun clauses '(field, value) =>
               (clauses ++ [condition_clause field value])%list) conditions acc
  = (acc ++ map (fun c => condition_clause c.1 c.2) conditions)%list.
Proof.
  revert acc; induction conditions as [|[field value] conditions IH]; intros acc; simpl.
  - now rewrite app_nil_r.
  - rewrite IH, <- app_assoc. reflexivity.
Qed.

Lemma where_clause_single (field : string) (value : pyval) :
  generate_where_clause [(field, value)] = condition_clause field value.
Proof. reflexivity. Qed.

(** C7. [generate_where_clause] joins, with [" AND "] and in the order of the
    mapping, the clause of each condition taken alone; and a condition alone
    gives [field IS NULL] for the value [None], [field IN (...)] with the
    parameters [$field_0] to [$field_(n-1)], one per element, for a list or a
    tuple of [n] elements, and [field = $field] for any other value. *)
Theorem generate_where_clause_spec (conditions : list (string * pyval)) :
  generate_where_clause conditions =
    String.concat " AND " (map (fun c => generate_where_clause [c]) conditions)
  /\ forall (field : string) (value : pyval),
       match value with
       | VNone => generate_where_clause [(field, value)] = field +:+ " IS NULL"
       | VList items | VTuple items =>
           exists params : list string,
             length params = length items
             /\ (forall i : nat, (i < length items)%nat ->
                   params !! i = Some ("$" +:+ field +:+ "_" +:+ Py.str_of_nat i))
             /\ generate_where_clause [(field, value)] =
                  field +:+ " IN (" +:+ String.concat ", " params +:+ ")"
       | _ => generate_where_clause [(field, value)] = field +:+ " = $" +:+ field
       end.
Proof.
  split.
  - unfold generate_where_clause at 1. rewrite where_clauses_loop. simpl.
    f_equal. apply map_ext. intros [field value]. now rewrite where_clause_single.
  - intros field value. rewrite where_clause_single.
    destruct value as [| | | |items|items|]; try reflexivity.
    all: eexists; split; [| split; [| reflexivity]].
    all: try (rewrite length_map, length_seq; reflexivity).
    all: intros i Hi; now rewrite lookup_map_seq.
Qed.

(** *** select_query, clause by clause *)

(** C8. The statement of [select_query] is the column list, the table, then
    the WHERE, ORDER BY and LIMIT/OFFSET parts in this order, each part empty
    unless its argument is there; and without a LIMIT the OFFSET argument has
    no effect on the statement. *)
Theorem select_query_clause_order (table_name : string)
    (ydb_fields : option (list (string * YDBFieldInfo)))
    (where_ : option (list (string * pyval))) (order_by : option (list string))
    (limit offset : option Z) (columns : option (list string)) :
  select_query table_name ydb_fields where_ order_by limit offset columns =
    "SELECT " +:+ select_columns columns ydb_fields +:+ " FROM `" +:+ table_name +:+ "`"
      +:+ where_part where_ +:+ order_part order_by +:+ limit_part limit offset
  /\ select_query table_name ydb_fields where_ order_by None offset columns =
     select_query table_name ydb_fields where_ order_by None None columns.
Proof.
  split; [| reflexivity].
  unfold select_query.
  assert (Hcols :
    (if Py.truthy columns then String.concat ", " (default [] columns)
     else if Py.truthy ydb_fields then String.concat ", " (keys (default [] ydb_fields))
     else "*") = select_columns columns ydb_fields).
  { destruct columns as [[|c cs]|], ydb_fields as [[|f fs]|]; reflexivity. }
  rewrite Hcols. clear Hcols.
  generalize (select_columns columns ydb_fields) as cols. intros cols.
  destruct where_ as [[|c cs]|], order_by as [[|o os]|],
           limit as [l|], offset as [o'|];
    cbn [Py.truthy default where_part order_part limit_part]; same_text.
Qed.

(** C6. The SET clause of [update_query] assigns [field = $field] to each of
    its fields, joined with [", "]; its fields are those of [update_fields]
    that name a field of the binding set, in the order of [update_fields],
    when [update_fields] holds at least one name, and all the fields of the
    binding set otherwise. *)
Theorem update_query_set_clause (table_name : string)
    (ydb_fields : list (string * YDBFieldInfo))
    (where_ : option (list (string * pyval))) (update_fields : option (list string)) :
  exists set_fields : list string,
    match update_fields with
    | Some (u :: us) =>
        set_fields = filter (fun f => f ∈ keys ydb_fields) (u :: us)
        /\ forall f, f ∈ set_fields <-> f ∈ u :: us /\ f ∈ keys ydb_fields
    | _ => set_fields = keys ydb_fields
    end
    /\ update_query table_name ydb_fields where_ update_fields =
         "UPDATE `" +:+ table_name +:+ "` SET "
           +:+ String.concat ", " (map (fun field => field +:+ " = $" +:+ field) set_fields)
           +:+ where_part where_.
Proof.
  unfold update_query.
  destruct update_fields as [[|u us]|]; cbn [Py.truthy default].
  2: { eexists; split; [split; [reflexivity |] |].
       - intros f. rewrite list_elem_of_filter. tauto.
       - destruct where_ as [[|c cs]|]; cbn [Py.truthy default where_part]; same_text. }
  all: eexists; split; [reflexivity |].
  all: destruct where_ as [[|c cs]|]; cbn [Py.truthy default where_part]; same_text.
Qed.

(** C9. [delete_query] is a total function: with an empty predicate mapping it
    returns the DELETE statement without a WHERE clause, and with a non-empty
    one the WHERE clause that [generate_where_clause] produces. *)
Theorem delete_query_where (table_name : string) :
  delete_query table_name [] = "DELETE FROM `" +:+ table_name +:+ "`"
  /\ forall c cs,
       delete_query table_name (c :: cs) =
       "DELETE FROM `" +:+ table_name +:+ "` WHERE " +:+ generate_where_clause (c :: cs).
Proof.
  split; [reflexivity |].
  intros c cs. unfold delete_query.
  change "` WHERE " with ("`" +:+ " WHERE ").
  now rewrite !append_assoc.
Qed.

(** C10. With [on_conflict="UPDATE"], [insert_query] returns the text of
    [upsert_query]. *)
Theorem insert_on_conflict_update_is_upsert (table_name : string)
    (ydb_fields : list (string * YDBFieldInfo)) :
  insert_query table_name ydb_fields (Some "UPDATE") = upsert_query table_name ydb_fields.
Proof.
  unfold insert_query, upsert_query.
  destruct (decide (Some "UPDATE" = Some "REPLACE")) as [H|_]; [discriminate H |].
  destruct (decide (Some "UPDATE" = Some "UPDATE")) as [_|H]; [reflexivity | now destruct H].
Qed.

(** C4, at a column whose name contains INSERT: the REPLACE statement is the
    INSERT statement with every INSERT rewritten, the one inside the column
    name and its placeholder included, while the plain and the UPSERT
    statements keep the column. *)
Theorem insert_query_replace_rewrites_names :
  let ydb_fields := [("id", YDBFieldInfo_init "id" Types.YDB_int64 None);
                     ("INSERTED_AT", YDBFieldInfo_init "INSERTED_AT" Types.YDB_timestamp None)] in
  insert_query "t" ydb_fields None =
    "INSERT INTO `t` (id, INSERTED_AT) VALUES ($id, $INSERTED_AT)"
  /\ insert_query "t" ydb_fields (Some "UPDATE") =
    "UPSERT INTO `t` (id, INSERTED_AT) VALUES ($id, $INSERTED_AT)"
  /\ insert_query "t" ydb_fields (Some "REPLACE") =
    "REPLACE INTO `t` (id, REPLACEED_AT) VALUES ($id, $REPLACEED_AT)".
Proof. repeat split; vm_compute; reflexivity. Qed.

(** *** The REPLACE statement *)

(** A character foreign to [old] ends every match of [old] that starts
    before it. *)
Lemma prefix_sep (old t : string) (c : Ascii.ascii) (b : string) :
  has_char c old = false ->
  String.prefix old (t +:+ String c b) = String.prefix old t.
Proof.
  revert t; induction old as [|o old IH]; intros t Hc.
  - now destruct t.
  - simpl in Hc. apply orb_false_elim in Hc as [Hco Hc].
    destruct t as [|x t].
    + change (String.prefix (String o old) (String c b) = false). simpl.
      destruct (Ascii.ascii_dec o c) as [->|_]; [| reflexivity].
      now rewrite Ascii.eqb_refl in Hco.
    + change (String.prefix (String o old) (String x (t +:+ String c b))
              = String.prefix (String o old) (String x t)).
      simpl. destruct (Ascii.ascii_dec o x); [now apply IH | reflexivity].
Qed.

Lemma occurs_sep (old a : string) (c : Ascii.ascii) (b : string) :
  has_char c old = false ->
  occurs old a = false -> occurs old (String c b) = false ->
  occurs old (a +:+ String c b) = false.
Proof.
  intros Hc Ha Hb. induction a as [|x a IH]; [exact Hb |].
  change (String.prefix old (String x a +:+ String c b)
          || occurs old (a +:+ String c b) = false).
  cbn [occurs] in Ha. apply orb_false_elim in Ha as [Hp Ha].
  now rewrite (prefix_sep old (String x a) c b Hc), Hp, (IH Ha).
Qed.

(** [replace] copies a text free of [old] up to a character foreign to
    [old]. *)
Lemma replace_from_clean (old new t : string) (c : Ascii.ascii) (b : string) :
  has_char c old = false ->
  occurs old t = false ->
  Py.replace_from old new 0 (t +:+ String c b)
  = t +:+ Py.replace_from old new 0 (String c b).
Proof.
  intros Hc. induction t as [|x t IH]; intros Ht; [reflexivity |].
  cbn [occurs] in Ht. apply orb_false_elim in Ht as [Hp Ht].
  change (Py.replace_from old new 0 (String x (t +:+ String c b))
          = String x (t +:+ Py.replace_from old new 0 (String c b))).
  cbn [Py.replace_from].
  change (String x (t +:+ String c b)) with (String x t +:+ String c b).
  rewrite (prefix_sep old (String x t) c b Hc), Hp.
  now rewrite (IH Ht).
Qed.

Example occurs_in_column : occurs "INSERT" "INSERTED_AT" = true /\ clean "created_at".
Proof. split; reflexivity. Qed.

Lemma clean_cons (c : Ascii.ascii) (r : string) :
  c <> "I"%char -> clean r -> clean (String c r).
Proof.
  intros Hc Hr. unfold clean in *. cbn [occurs]. rewrite Hr, orb_false_r.
  cbn [String.prefix]. destruct (Ascii.ascii_dec "I" c) as [<-|_]; [now destruct Hc | reflexivity].
Qed.

Lemma clean_concat (cols : list string) :
  Forall clean cols -> clean (String.concat ", " cols).
Proof.
  induction cols as [|x [|y cols] IH]; intros Hall.
  - reflexivity.
  - now apply Forall_cons in Hall as [Hx _].
  - apply Forall_cons in Hall as [Hx Hall].
    change (clean (x +:+ String ","%char (String " "%char (String.concat ", " (y :: cols))))).
    apply occurs_sep; [reflexivity | exact Hx |].
    apply clean_cons; [discriminate |]. apply clean_cons; [discriminate |]. now apply IH.
Qed.

Lemma clean_placeholders (cols : list string) :
  Forall clean cols -> Forall clean (map (fun col => "$" +:+ col) cols).
Proof.
  intros Hall. apply Forall_forall. intros ph Hph.
  apply list_elem_of_In, in_map_iff in Hph as (col & <- & Hcol).
  rewrite Forall_forall in Hall. specialize (Hall col (proj2 (list_elem_of_In _ _) Hcol)).
  change (clean (String "$"%char col)). apply clean_cons; [discriminate | exact Hall].
Qed.

(** With [on_conflict="REPLACE"], and a table name and column names in which
    INSERT does not occur, [insert_query] returns the INSERT statement with
    the verb REPLACE: same columns, same placeholders, same order. *)
Theorem insert_query_replace_on_clean_names (table_name : string)
    (ydb_fields : list (string * YDBFieldInfo)) :
  clean table_name ->
  Forall clean (keys ydb_fields) ->
  insert_query table_name ydb_fields (Some "REPLACE") =
    "REPLACE INTO `" +:+ table_name +:+ "` (" +:+ String.concat ", " (keys ydb_fields)
      +:+ ") VALUES ("
      +:+ String.concat ", " (map (fun col => "$" +:+ col) (keys ydb_fields)) +:+ ")".
Proof.
  intros Htable Hcols. unfold insert_query.
  destruct (decide (Some "REPLACE" = Some "REPLACE")) as [_|H]; [| now destruct H].
  pose proof (clean_concat _ Hcols) as Hc.
  pose proof (clean_concat _ (clean_placeholders _ Hcols)) as Hp.
  generalize dependent (String.concat ", " (map (fun col => "$" +:+ col) (keys ydb_fields))).
  generalize dependent (String.concat ", " (keys ydb_fields)).
  intros cols Hc phs Hp. unfold Py.replace.
  change (Py.replace_from "INSERT" "REPLACE" 0
            ("INSERT INTO `" +:+ table_name +:+ "` (" +:+ cols +:+ ") VALUES (" +:+ phs +:+ ")"))
    with ("REPLACE INTO `" +:+
          Py.replace_from "INSERT" "REPLACE" 0
            (table_name +:+ String "`"%char (" (" +:+ cols +:+ ") VALUES (" +:+ phs +:+ ")"))).
  rewrite replace_from_clean by (reflexivity || exact Htable).
  change (Py.replace_from "INSERT" "REPLACE" 0
            (String "`"%char (" (" +:+ cols +:+ ") VALUES (" +:+ phs +:+ ")")))
    with ("` (" +:+ Py.replace_from "INSERT" "REPLACE" 0
                     (cols +:+ String ")"%char (" VALUES (" +:+ phs +:+ ")"))).
  rewrite replace_from_clean by (reflexivity || exact Hc).
  change (Py.replace_from "INSERT" "REPLACE" 0 (String ")"%char (" VALUES (" +:+ phs +:+ ")")))
    with (") VALUES (" +:+ Py.replace_from "INSERT" "REPLACE" 0 (phs +:+ String ")"%char "")).
  rewrite replace_from_clean by (reflexivity || exact Hp).
  reflexivity.
Qed.

(** The theorem above at the table [t] and the columns [id], [name]. *)
Lemma insert_query_replace_on_clean_names_witness :
  insert_query "t" [("id", YDBFieldInfo_init "id" Types.YDB_int64 None);
                    ("name", YDBFieldInfo_init "name" Types.YDB_utf8 None)]
               (Some "REPLACE")
  = "REPLACE INTO `t` (id, name) VALUES ($id, $name)".
Proof.
  apply (insert_query_replace_on_clean_names "t"
           [("id", YDBFieldInfo_init "id" Types.YDB_int64 None);
            ("name", YDBFieldInfo_init "name" Types.YDB_utf8 None)]).
  - reflexivity.
  - repeat constructor.
Defined.

(** Without a conflict policy, or with one that is neither REPLACE nor
    UPDATE, [insert_query] returns the plain INSERT statement; with UPDATE,
    the same statement under the verb UPSERT. *)
Theorem insert_query_plain_and_upsert (table_name : string)
    (ydb_fields : list (string * YDBFieldInfo)) (on_conflict : option string) :
  insert_query table_name ydb_fields on_conflict =
    if decide (on_conflict = Some "REPLACE")
    then insert_query table_name ydb_fields (Some "REPLACE")
    else
      (if decide (on_conflict = Some "UPDATE") then "UPSERT" else "INSERT")
        +:+ " INTO `" +:+ table_name +:+ "` (" +:+ String.concat ", " (keys ydb_fields)
        +:+ ") VALUES ("
        +:+ String.concat ", " (map (fun col => "$" +:+ col) (keys ydb_fields)) +:+ ")".
Proof.
  unfold insert_query.
  destruct (decide (on_conflict = Some "REPLACE")) as [->|_]; [reflexivity |].
  destruct (decide (on_conflict = Some "UPDATE")); reflexivity.
Qed.

End QueriesFacts.

(** ** decorator.py *)

Module DecoratorFacts.

Import Types Decorator Notions Examples.

(** *** Ordered dictionaries *)

Lemma keys_odict_set {A} (d : list (string * A)) (k : string) (v : A) :
  keys (odict_set d k v) = if decide (k ∈ keys d) then keys d else (keys d ++ [k])%list.
Proof.
  induction d as [|[k' v'] d IH]; simpl.
  - reflexivity.
  - destruct (decide (k' = k)) as [->|Hne]; simpl.
    + rewrite decide_True by apply list_elem_of_here. reflexivity.
    + rewrite IH. destruct (decide (k ∈ keys d)) as [Hin|Hnin].
      * rewrite decide_True by (apply list_elem_of_further; exact Hin). reflexivity.
      * rewrite decide_False; [reflexivity |].
        intros Hin. apply elem_of_cons in Hin as [->|Hin]; [now apply Hne | now apply Hnin].
Qed.

Lemma NoDup_keys_odict_set {A} (d : list (string * A)) (k : string) (v : A) :
  NoDup (keys d) -> NoDup (keys (odict_set d k v)).
Proof.
  intros Hd. rewrite keys_odict_set. destruct (decide (k ∈ keys d)) as [Hin|Hnin]; [exact Hd |].
  apply NoDup_app. split; [exact Hd |]. split.
  - intros x Hx Hk. apply list_elem_of_singleton in Hk as ->. now apply Hnin.
  - apply NoDup_singleton.
Qed.

Lemma elem_of_odict_set {A} (d : list (string * A)) (k : string) (v : A) (e : string * A) :
  e ∈ odict_set d k v -> e = (k, v) \/ e ∈ d.
Proof.
  induction d as [|[k' v'] d IH]; simpl.
  - intros He. apply list_elem_of_singleton in He. now left.
  - destruct (decide (k' = k)) as [->|Hne]; intros He.
    + apply elem_of_cons in He as [->|He]; [now left |].
      right. now apply list_elem_of_further.
    + apply elem_of_cons in He as [->|He]; [right; apply list_elem_of_here |].
      destruct (IH He) as [->|Hd]; [now left | right; now apply list_elem_of_further].
Qed.

(** *** Type resolution *)

Section Resolution.

Variable registry : list YDBType.

Lemma existsb_find {A} (p : A -> bool) (l : list A) :
  existsb p l = match find p l with Some _ => true | None => false end.
Proof. induction l as [|x l IH]; simpl; [reflexivity |]. destruct (p x); [reflexivity | exact IH]. Qed.

(** The guard and the resolver decide alike: the resolver returns a type
    exactly for the annotations the guard lets through. *)
Lemma extract_of_is_ydb_type (t : annotation) :
  _is_ydb_type registry t = true ->
  exists ydb_type, _extract_ydb_type registry t = Ok ydb_type.
Proof.
  unfold _is_ydb_type, _extract_ydb_type. rewrite existsb_find.
  destruct (find (is_attr t) registry) as [attr|]; [intros _; eauto |].
  destruct (get_origin t); [| discriminate].
  destruct (get_args t) as [|inner_type [|a1 [|]]]; try discriminate.
  destruct (is_NoneType a1); [| discriminate].
  rewrite existsb_find.
  destruct (find (is_attr inner_type) registry) as [attr|]; [intros _; eauto | discriminate].
Qed.

Lemma extract_of_not_ydb_type (t : annotation) :
  _is_ydb_type registry t = false ->
  _extract_ydb_type registry t = Raise (TypeError_not_ydb_type t).
Proof.
  unfold _is_ydb_type, _extract_ydb_type. rewrite existsb_find.
  destruct (find (is_attr t) registry) as [attr|]; [discriminate |].
  destruct (get_origin t); [| reflexivity].
  destruct (get_args t) as [|inner_type [|a1 [|]]]; try reflexivity.
  destruct (is_NoneType a1); [| reflexivity].
  rewrite existsb_find.
  destruct (find (is_attr inner_type) registry) as [attr|]; [discriminate | reflexivity].
Qed.

(** *** The first loop of wrap *)

Lemma collected_nil : collected [] [].
Proof. repeat split; [apply NoDup_nil_2 | apply Forall_nil_2]. Qed.

Lemma collected_set ydb_fields python_annotations name ydb_type :
  collected ydb_fields python_annotations ->
  collected (odict_set ydb_fields name (YDBFieldInfo_init name ydb_type None))
            (odict_set python_annotations name (python_type ydb_type)).
Proof.
  intros (Hk & Hnd & Hall). repeat split.
  - rewrite !keys_odict_set, Hk. reflexivity.
  - now apply NoDup_keys_odict_set.
  - apply Forall_forall. intros e He.
    apply elem_of_odict_set in He as [->|He]; [now split |].
    rewrite Forall_forall in Hall. now apply Hall.
Qed.

(** The loop raises on no input: the resolver is called under the guard
    only. *)
Lemma collect_fields_total items ydb_fields python_annotations :
  collected ydb_fields python_annotations ->
  exists ydb_fields' python_annotations',
    collect_fields registry items ydb_fields python_annotations
      = Ok (ydb_fields', python_annotations')
    /\ collected ydb_fields' python_annotations'.
Proof.
  revert ydb_fields python_annotations.
  induction items as [|[name type_annotation] items IH]; intros F P HFP; simpl.
  - eauto.
  - destruct (_is_ydb_type registry type_annotation) eqn:Hguard; [| now apply IH].
    destruct (extract_of_is_ydb_type _ Hguard) as [ydb_type ->]. simpl.
    apply IH. now apply collected_set.
Qed.

(** On annotations with distinct names, the loop appends the attributes that
    pass the guard, in their order. *)
Lemma collect_fields_keys items ydb_fields python_annotations ydb_fields' python_annotations' :
  NoDup (keys ydb_fields ++ keys items) ->
  collect_fields registry items ydb_fields python_annotations
    = Ok (ydb_fields', python_annotations') ->
  keys ydb_fields' =
    (keys ydb_fields ++ keys (filter (fun e => _is_ydb_type registry e.2) items))%list.
Proof.
  revert ydb_fields python_annotations.
  induction items as [|[name type_annotation] items IH]; intros F P Hnd; simpl.
  - intros [= <- <-]. now rewrite app_nil_r.
  - rewrite filter_cons. simpl.
    destruct (_is_ydb_type registry type_annotation) eqn:Hguard.
    + destruct (extract_of_is_ydb_type _ Hguard) as [ydb_type ->]. simpl.
      assert (Hfresh : name ∉ keys F).
      { apply NoDup_app in Hnd as (_ & Hdisj & _). intros Hin.
        apply (Hdisj name Hin). apply list_elem_of_here. }
      intros Hrun. apply IH in Hrun.
      * rewrite Hrun, keys_odict_set, decide_False by exact Hfresh.
        now rewrite <- app_assoc.
      * rewrite keys_odict_set, decide_False by exact Hfresh.
        rewrite <- app_assoc. exact Hnd.
    + apply IH. simpl in Hnd.
      apply NoDup_app in Hnd as (HF & Hdisj & Hitems).
      apply NoDup_app. repeat split; [exact HF | | now apply NoDup_cons in Hitems].
      intros x Hx Hin. apply (Hdisj x Hx). now apply list_elem_of_further.
Qed.

(** *** wrap *)

Lemma dataclass_ok_inv python_annotations class_attrs opts fs :
  dataclass python_annotations class_attrs opts = Ok fs ->
  fs = map (dataclass_field class_attrs) python_annotations.
Proof.
  unfold dataclass.
  replace (map _ python_annotations) with (map (dataclass_field class_attrs) python_annotations)
    by (apply map_ext; now intros [n ty]).
  destruct (find _ _); [discriminate |].
  destruct (opt_order opts && negb (opt_eq opts)); [discriminate |].
  destruct (opt_init opts); [| now intros [= <-]].
  destruct (check_order false _) as [[]|]; simpl; [now intros [= <-] | discriminate].
Qed.

Lemma check_order_error seen fs e :
  check_order seen fs = Raise e ->
  exists name, e = TypeError_non_default_follows_default name.
Proof.
  revert seen; induction fs as [|f fs IH]; intros seen; simpl; [discriminate |].
  destruct (dc_default f); [apply IH |].
  destruct seen; [intros [= <-]; eauto | apply IH].
Qed.

Lemma dataclass_no_resolution_error python_annotations class_attrs opts t :
  dataclass python_annotations class_attrs opts <> Raise (TypeError_not_ydb_type t).
Proof.
  unfold dataclass.
  destruct (find _ _); [discriminate |].
  destruct (opt_order opts && negb (opt_eq opts)); [discriminate |].
  destruct (opt_init opts); [| discriminate].
  destruct (check_order false _) as [[]|e] eqn:Hord; simpl; [discriminate |].
  apply check_order_error in Hord as [name ->]. discriminate.
Qed.

(** What a class that [wrap] returns is made of. *)
Lemma wrap_ok_inv opts cls b :
  wrap registry opts cls = Ok b ->
  exists python_annotations,
    collect_fields registry (annotations cls) [] [] = Ok (_ydb_fields b, python_annotations)
    /\ collected (_ydb_fields b) python_annotations
    /\ dataclass_fields cls = Some []
    /\ dc_fields b = map (dataclass_field (attrs cls)) python_annotations
    /\ dc_init b = opt_init opts.
Proof.
  unfold wrap.
  destruct (collect_fields_total (annotations cls) [] [] collected_nil)
    as (F & P & -> & HFP). simpl.
  unfold capture_defaults. destruct (dataclass_fields cls) as [[|? ?]|]; simpl; try discriminate.
  rewrite (left_id_L ∅ (∪)).
  destruct (dataclass P (attrs cls) opts) as [fs|e] eqn:Hdc; simpl; [| discriminate].
  intros [= <-]. simpl. apply dataclass_ok_inv in Hdc. eauto 10.
Qed.

(** [wrap] returns only for a class on which [dataclasses.fields] finds an
    empty tuple: on a class that is not and does not derive from a dataclass
    the call [fields(cls)] raises, and on a class with dataclass fields the
    loop target [name, field] fails to unpack the first of them. *)
Theorem wrap_calls_dataclass_fields (opts : Options) (cls : Shape) :
  match dataclass_fields cls with
  | None => wrap registry opts cls = Raise TypeError_not_a_dataclass
  | Some (_ :: _) => wrap registry opts cls = Raise TypeError_cannot_unpack_Field
  | Some [] => ~ raises (capture_defaults cls)
  end.
Proof.
  unfold wrap, capture_defaults.
  destruct (collect_fields_total (annotations cls) [] [] collected_nil)
    as (F & P & -> & _).
  destruct (dataclass_fields cls) as [[|? ?]|]; simpl; tauto.
Qed.

(** C1, as amended: the binder skips an attribute whose type does not resolve.
    For a class whose annotations have distinct names, [wrap] never raises the
    resolver's error; when it returns, the binding set holds the attributes
    whose type passes [_is_ydb_type], in declaration order, and no other; and
    the resolver [_extract_ydb_type] raises its [TypeError] exactly on the
    types that [_is_ydb_type] rejects, on which [wrap] does not call it. *)
Theorem wrap_skips_unresolved_types (opts : Options) (cls : Shape) :
  NoDup (keys (annotations cls)) ->
  (forall t, wrap registry opts cls <> Raise (TypeError_not_ydb_type t))
  /\ (forall b, wrap registry opts cls = Ok b ->
        keys (_ydb_fields b) =
        keys (filter (fun e => _is_ydb_type registry e.2) (annotations cls)))
  /\ (forall t, _is_ydb_type registry t = false <->
                _extract_ydb_type registry t = Raise (TypeError_not_ydb_type t)).
Proof.
  intros Hnd. split; [| split].
  - intros t. unfold wrap.
    destruct (collect_fields_total (annotations cls) [] [] collected_nil)
      as (F & P & -> & _). simpl.
    unfold capture_defaults. destruct (dataclass_fields cls) as [[|? ?]|]; simpl; try discriminate.
    destruct (dataclass P _ opts) as [fs|e] eqn:Hdc; simpl; [discriminate |].
    intros [= ->]. now apply dataclass_no_resolution_error in Hdc.
  - intros b Hb. apply wrap_ok_inv in Hb as (P & Hrun & _).
    now apply collect_fields_keys in Hrun.
  - intros t. split; [apply extract_of_not_ydb_type |].
    intros Hraise. destruct (_is_ydb_type registry t) eqn:Hguard; [| reflexivity].
    apply extract_of_is_ydb_type in Hguard as [ydb_type Hok]. congruence.
Qed.

End Resolution.

(** *** Examples of binding *)

(** C1, counterexample: [int] and [Optional[int]] do not pass the guard, and
    binding a class that declares them returns a class. *)
Lemma wrap_accepts_unsupported_types :
  _is_ydb_type empty_registry (APy "int") = false
  /\ _is_ydb_type empty_registry (typing_Optional (APy "int")) = false
  /\ (exists b, wrap empty_registry default_options mixed_shape = Ok b
              /\ keys (_ydb_fields b) = []).
Proof. repeat split; eexists; split; reflexivity. Qed.

(** The amended C1 at [mixed_shape]. *)
Lemma wrap_skips_unresolved_types_witness :
  (forall t, wrap empty_registry default_options mixed_shape <> Raise (TypeError_not_ydb_type t))
  /\ (forall b, wrap empty_registry default_options mixed_shape = Ok b ->
        keys (_ydb_fields b) =
        keys (filter (fun e => _is_ydb_type empty_registry e.2) (annotations mixed_shape)))
  /\ (forall t, _is_ydb_type empty_registry t = false <->
                _extract_ydb_type empty_registry t = Raise (TypeError_not_ydb_type t)).
Proof.
  apply (wrap_skips_unresolved_types empty_registry default_options mixed_shape).
  apply (bool_decide_unpack _). vm_compute. exact I.
Defined.

(** *** Record construction *)

Lemma dc_name_elem_of (f : DataclassField) (fs : list DataclassField) :
  f ∈ fs -> dc_name f ∈ map dc_name fs.
Proof. intros Hf. apply list_elem_of_In, in_map, list_elem_of_In, Hf. Qed.

Lemma dc_name_elem_of_inv (name : string) (fs : list DataclassField) :
  name ∈ map dc_name fs -> exists f, f ∈ fs /\ dc_name f = name.
Proof.
  intros Hin. apply list_elem_of_In, in_map_iff in Hin as (f & <- & Hf).
  exists f. split; [now apply list_elem_of_In | reflexivity].
Qed.

Lemma attributes_keys kwargs fs name :
  name ∈ (omap (attribute kwargs) fs).*1 -> name ∈ map dc_name fs.
Proof.
  induction fs as [|f fs IH]; simpl; [intros H; exact H |].
  unfold attribute at 1. destruct (argument kwargs f) as [v|]; simpl.
  - intros H. apply elem_of_cons in H as [->|H]; [apply list_elem_of_here |].
    apply list_elem_of_further. now apply IH.
  - intros H. apply list_elem_of_further. now apply IH.
Qed.

Lemma attributes_lookup kwargs fs f :
  NoDup (map dc_name fs) -> f ∈ fs ->
  (list_to_map (omap (attribute kwargs) fs) : gmap string pyval) !! dc_name f
  = argument kwargs f.
Proof.
  induction fs as [|g fs IH]; simpl; intros Hnd Hf; [now apply elem_of_nil in Hf |].
  apply NoDup_cons in Hnd as [Hg Hnd].
  apply elem_of_cons in Hf as [->|Hf].
  - unfold attribute at 1. destruct (argument kwargs g) as [v|]; simpl.
    + apply lookup_insert_eq.
    + apply not_elem_of_list_to_map_1. intros Hin. apply Hg.
      now apply attributes_keys in Hin.
  - assert (Hne : dc_name g <> dc_name f).
    { intros Heq. apply Hg. rewrite Heq. now apply dc_name_elem_of. }
    unfold attribute at 1. destruct (argument kwargs g) as [v|]; simpl.
    + rewrite lookup_insert_ne by exact Hne. now apply IH.
    + now apply IH.
Qed.

(** [construct] with [init=True], when every keyword names a field. *)
Lemma construct_init cls kwargs :
  dc_init cls = true ->
  dom kwargs ⊆ list_to_set (map dc_name (dc_fields cls)) ->
  construct cls kwargs =
    match filter (fun f => kwargs !! dc_name f = None /\ dc_default f = None) (dc_fields cls) with
    | [] => Ok (list_to_map (omap (attribute kwargs) (dc_fields cls)))
    | missing => Raise (TypeError_missing_arguments (map dc_name missing))
    end.
Proof.
  intros Hinit Hdom. unfold construct. rewrite Hinit.
  rewrite bool_decide_eq_true_2 by exact Hdom. reflexivity.
Qed.

(** *** from_dict *)

(** With no default in any [YDBFieldInfo], the loop of [from_dict] raises at
    the first field that the mapping lacks, and copies the mapping's values
    otherwise. *)
Lemma from_dict_kwargs_no_default fields data kwargs :
  Forall (fun e : string * YDBFieldInfo => field_name e.2 = e.1 /\ field_default e.2 = None) fields ->
  match from_dict_kwargs fields data kwargs with
  | Ok kwargs' =>
      (forall name, name ∈ keys fields -> is_Some (data !! name))
      /\ forall name, kwargs' !! name =
                      if decide (name ∈ keys fields) then data !! name else kwargs !! name
  | Raise e =>
      exists name, e = ValueError_missing_field name
                   /\ name ∈ keys fields /\ data !! name = None
  end.
Proof.
  revert kwargs; induction fields as [|[name field] fields IH]; intros kwargs Hall; simpl.
  - split; [intros name H; now apply elem_of_nil in H | reflexivity].
  - apply Forall_cons in Hall as [[_ Hdef] Hall]. simpl in Hdef.
    destruct (data !! name) as [v|] eqn:Hdata.
    + specialize (IH (<[name := v]> kwargs) Hall).
      destruct (from_dict_kwargs fields data _) as [kwargs'|e].
      * destruct IH as [Hsome Hlook]. split.
        -- intros n Hn. apply elem_of_cons in Hn as [->|Hn]; [rewrite Hdata; eauto | now apply Hsome].
        -- intros n. rewrite Hlook.
           destruct (decide (n ∈ keys fields)) as [Hin|Hnin].
           ++ rewrite decide_True by (now apply list_elem_of_further). reflexivity.
           ++ destruct (decide (n = name)) as [->|Hne].
              ** rewrite decide_True by apply list_elem_of_here.
                 now rewrite lookup_insert_eq.
              ** rewrite lookup_insert_ne by congruence.
                 rewrite decide_False; [reflexivity |].
                 intros H. apply elem_of_cons in H as [?|?]; [now apply Hne | now apply Hnin].
      * destruct IH as (n & -> & Hn & Hnone). exists n. repeat split; [| exact Hnone].
        now apply list_elem_of_further.
    + rewrite Hdef. exists name. repeat split; [apply list_elem_of_here | exact Hdata].
Qed.

(** The loop of [from_dict] by itself honours the default a [YDBFieldInfo]
    holds: on fields with distinct names it raises exactly for a field that
    the mapping lacks and that holds no default, and otherwise gives every
    field its supplied value or else its default. *)
Theorem from_dict_kwargs_honours_field_default
    (fields : list (string * YDBFieldInfo)) (data kwargs : gmap string pyval) :
  NoDup (keys fields) ->
  Forall (fun e : string * YDBFieldInfo => field_name e.2 = e.1) fields ->
  match from_dict_kwargs fields data kwargs with
  | Ok kwargs' =>
      forall e, e ∈ fields ->
        is_Some (kwargs' !! e.1) /\ kwargs' !! e.1 = supplied_or_default data e.2
  | Raise err =>
      exists e, e ∈ fields /\ err = ValueError_missing_field e.1
                /\ data !! e.1 = None /\ field_default e.2 = None
  end.
Proof.
  intros Hnd Hall.
  assert (Hgen : forall kwargs,
    match from_dict_kwargs fields data kwargs with
    | Ok kwargs' =>
        (forall e, e ∈ fields ->
           is_Some (kwargs' !! e.1) /\ kwargs' !! e.1 = supplied_or_default data e.2)
        /\ (forall name, name ∉ keys fields -> kwargs' !! name = kwargs !! name)
    | Raise err =>
        exists e, e ∈ fields /\ err = ValueError_missing_field e.1
                  /\ data !! e.1 = None /\ field_default e.2 = None
    end).
  { clear kwargs. induction fields as [|[name field] fields IH]; intros kwargs; simpl.
    - split; [intros e He; now apply elem_of_nil in He | reflexivity].
    - apply NoDup_cons in Hnd as [Hfresh Hnd].
      apply Forall_cons in Hall as [Hname Hall]. simpl in Hname.
      specialize (IH Hnd Hall).
      assert (Hstep : forall v, supplied_or_default data field = Some v ->
        match from_dict_kwargs fields data (<[name := v]> kwargs) with
        | Ok kwargs' =>
            (forall e, e ∈ (name, field) :: fields ->
               is_Some (kwargs' !! e.1) /\ kwargs' !! e.1 = supplied_or_default data e.2)
            /\ (forall n, n ∉ name :: keys fields -> kwargs' !! n = kwargs !! n)
        | Raise err =>
            exists e, e ∈ (name, field) :: fields /\ err = ValueError_missing_field e.1
                      /\ data !! e.1 = None /\ field_default e.2 = None
        end).
      { intros v Hv. specialize (IH (<[name := v]> kwargs)).
        destruct (from_dict_kwargs fields data _) as [kwargs'|err].
        - destruct IH as [Hin Hout]. split.
          + intros e He. apply elem_of_cons in He as [->|He]; [| now apply Hin].
            simpl. rewrite (Hout name Hfresh), lookup_insert_eq, Hv. eauto.
          + intros n Hn. apply not_elem_of_cons in Hn as [Hne Hn].
            rewrite (Hout n Hn). now apply lookup_insert_ne.
        - destruct IH as (e & He & Herr). exists e. split; [| exact Herr].
          now apply list_elem_of_further. }
      unfold supplied_or_default in Hstep. rewrite Hname in Hstep.
      destruct (data !! name) as [v|] eqn:Hdata; [now apply Hstep |].
      destruct (field_default field) as [d|] eqn:Hdef; [now apply Hstep |].
      exists (name, field). repeat split; [apply list_elem_of_here | exact Hdata | exact Hdef]. }
  specialize (Hgen kwargs). destruct (from_dict_kwargs fields data kwargs); [| exact Hgen].
  now destruct Hgen.
Qed.

(** The loop of [from_dict] on these fields and the mapping [{"id": 1}]. *)
Lemma from_dict_kwargs_honours_field_default_witness :
  match from_dict_kwargs counter_fields_with_default {[ "id" := VInt 1 ]} ∅ with
  | Ok kwargs' =>
      forall e, e ∈ counter_fields_with_default ->
        is_Some (kwargs' !! e.1)
        /\ kwargs' !! e.1 = supplied_or_default {[ "id" := VInt 1 ]} e.2
  | Raise err =>
      exists e, e ∈ counter_fields_with_default /\ err = ValueError_missing_field e.1
                /\ ({[ "id" := VInt 1 ]} : gmap string pyval) !! e.1 = None
                /\ field_default e.2 = None
  end.
Proof.
  apply (from_dict_kwargs_honours_field_default counter_fields_with_default
           {[ "id" := VInt 1 ]} ∅).
  - apply (bool_decide_unpack _). vm_compute. exact I.
  - repeat constructor.
Defined.

(** *** Classes that [wrap] returns *)

Section ReadPath.

Variable registry : list YDBType.

(** The dataclass fields of a bound class: one per bound field, under the
    same name, with the class attribute of that name as default. *)
Lemma wrap_dataclass_fields opts shape cls :
  wrap registry opts shape = Ok cls ->
  map dc_name (dc_fields cls) = keys (_ydb_fields cls)
  /\ NoDup (keys (_ydb_fields cls))
  /\ forall f, f ∈ dc_fields cls -> dc_default f = attrs shape !! dc_name f.
Proof.
  intros Hwrap. apply wrap_ok_inv in Hwrap as (P & _ & (Hkeys & Hnd & _) & _ & -> & _).
  split; [| split; [exact Hnd |]].
  - rewrite Hkeys. unfold keys. rewrite map_map. reflexivity.
  - intros f Hf. apply list_elem_of_In, in_map_iff in Hf as (e & <- & _). reflexivity.
Qed.

End ReadPath.

(** *** The empty registry *)

(** With a registry that accepts no attribute, no annotation passes the guard
    and [wrap] binds no field: the class it returns has an empty binding set
    and no dataclass field, and [from_dict] and [from_ydb_row] call it with no
    argument, whatever the mapping and the row. *)
Theorem empty_registry_binds_nothing (opts : Options) (shape : Shape) :
  (forall t, _is_ydb_type empty_registry t = false)
  /\ forall cls, wrap empty_registry opts shape = Ok cls ->
       _ydb_fields cls = [] /\ dc_fields cls = []
       /\ forall data row,
            from_dict cls data = construct cls ∅
            /\ from_ydb_row cls row = construct cls ∅.
Proof.
  assert (Hguard : forall t, _is_ydb_type empty_registry t = false).
  { intros t. unfold _is_ydb_type, empty_registry. simpl.
    destruct (get_origin t); [| reflexivity].
    destruct (get_args t) as [|inner_type [|a1 [|]]]; try reflexivity.
    now destruct (is_NoneType a1). }
  split; [exact Hguard |].
  intros cls Hwrap.
  assert (Hnone : forall items F P,
            collect_fields empty_registry items F P = Ok (F, P)).
  { induction items as [|[name t] items IH]; intros F P; simpl; [reflexivity |].
    rewrite Hguard. apply IH. }
  apply wrap_ok_inv in Hwrap as (P & Hrun & _ & _ & Hfs & _).
  rewrite Hnone in Hrun. injection Hrun as HF HP.
  rewrite <- HP in Hfs. simpl in Hfs.
  split; [now symmetry |]. split; [exact Hfs |].
  intros data row. unfold from_dict, from_ydb_row. rewrite <- HF. split; reflexivity.
Qed.

(** *** from_dict and from_ydb_row on the classes of a run *)

(** The class that [wrap] returns when the scans accept no attribute: no
    bound field, no dataclass field, the attributes of the declared class. *)
Lemma wrap_empty_registry_inv opts shape cls :
  wrap empty_registry opts shape = Ok cls ->
  cls = {| _ydb_fields := []; dc_fields := []; dc_init := opt_init opts;
           dc_attrs := attrs shape |}.
Proof.
  assert (Hnone : forall items F P,
            collect_fields empty_registry items F P = Ok (F, P)).
  { induction items as [|[name t] items IH]; intros F P; simpl; [reflexivity |].
    assert (Hguard : _is_ydb_type empty_registry t = false).
    { unfold _is_ydb_type, empty_registry. simpl.
      destruct (get_origin t); [| reflexivity].
      destruct (get_args t) as [|inner_type [|a1 [|]]]; try reflexivity.
      now destruct (is_NoneType a1). }
    rewrite Hguard. apply IH. }
  unfold wrap. rewrite Hnone. simpl.
  unfold capture_defaults. destruct (dataclass_fields shape) as [[|? ?]|]; simpl; try discriminate.
  rewrite (left_id_L ∅ (∪)). unfold dataclass. simpl.
  destruct (opt_order opts && negb (opt_eq opts)); simpl; [discriminate |].
  destruct (opt_init opts); simpl; now intros [= <-].
Qed.

(** The record factory of such a class, called without argument. *)
Lemma construct_no_field opts attrs :
  construct {| _ydb_fields := []; dc_fields := []; dc_init := opt_init opts;
               dc_attrs := attrs |} ∅ = Ok ∅.
Proof.
  unfold construct. simpl. destruct (opt_init opts).
  - rewrite bool_decide_eq_true_2 by (rewrite dom_empty_L; apply empty_subseteq).
    reflexivity.
  - now rewrite bool_decide_eq_true_2.
Qed.

(** C2, at the class [S(Base)] with [id: YDB.int64] and [n: YDB.int64 = 5],
    [Base] an empty dataclass, bound with the default options. The scans
    accept neither annotation and the binding set is empty, so the loop of
    [from_dict] has no field to look for: with the mapping [{}], which lacks
    the attribute [id] that has no default, [from_dict] does not raise and
    returns a record; with [{"id": 1}] it returns the same record, which has
    no attribute [id] (the supplied value is dropped) and reads [n] off the
    class; and the class refuses [id] as a keyword. No class that [wrap]
    returns in such a run raises the [ValueError] of [from_dict]. *)
Theorem from_dict_binds_no_declared_field :
  (exists cls,
      wrap empty_registry default_options counter_shape = Ok cls
      /\ _ydb_fields cls = []
      /\ from_dict cls ∅ = Ok ∅
      /\ from_dict cls {[ "id" := VInt 1 ]} = Ok ∅
      /\ getattr cls ∅ "id" = None
      /\ getattr cls ∅ "n" = Some (VInt 5)
      /\ construct cls {[ "id" := VInt 1 ]} = Raise TypeError_unexpected_keyword)
  /\ forall opts shape cls data name,
       wrap empty_registry opts shape = Ok cls ->
       from_dict cls data <> Raise (ValueError_missing_field name).
Proof.
  split.
  - eexists. split; [reflexivity |]. repeat split; vm_compute; reflexivity.
  - intros opts shape cls data name Hwrap. apply wrap_empty_registry_inv in Hwrap as ->.
    unfold from_dict. simpl. now rewrite construct_no_field.
Qed.



End DecoratorFacts.

(** ** Numbers as text *)

Module NumberText.

Import Notions.

(** The characters of a printed number are digits, after a sign at most. *)
Lemma uint_chars (d : Decimal.uint) (c : Ascii.ascii) :
  has_char c (NilEmpty.string_of_uint d) = true -> has_char c "0123456789" = true.
Proof.
  induction d; cbn [NilEmpty.string_of_uint has_char]; intros H;
    try discriminate;
    (apply orb_true_iff in H as [H|H]; [| now apply IHd]);
    apply Ascii.eqb_eq in H; subst c; reflexivity.
Qed.

Lemma str_of_Z_chars (z : Z) (c : Ascii.ascii) :
  has_char c (Py.str_of_Z z) = true -> has_char c "-0123456789" = true.
Proof.
  assert (Hu : forall d, has_char c (NilZero.string_of_uint d) = true ->
                         has_char c "0123456789" = true).
  { intros d H. destruct d; try (exact (uint_chars _ c H)).
    cbn in H. apply orb_true_iff in H as [H|H]; [| discriminate].
    apply Ascii.eqb_eq in H. subst c. reflexivity. }
  change (has_char c "-0123456789") with (Ascii.eqb c "-" || has_char c "0123456789").
  unfold Py.str_of_Z. destruct (Z.to_int z) as [d|d]; cbn [NilZero.string_of_int].
  - intros H. rewrite (Hu d H). apply orb_true_r.
  - intros H. cbn [has_char] in H. apply orb_true_iff in H as [H|H].
    + now rewrite H.
    + rewrite (Hu d H). apply orb_true_r.
Qed.

(** Two integers print alike only if they are equal. *)
Lemma str_of_Z_inj (z z' : Z) : Py.str_of_Z z = Py.str_of_Z z' -> z = z'.
Proof.
  unfold Py.str_of_Z. intros H. apply DecimalZ.to_int_inj.
  assert (Hparse : forall z, NilZero.int_of_string (NilZero.string_of_int (Z.to_int z))
                             = Some (Z.to_int z)).
  { intros x. apply NilZero.isi; destruct x; cbn; try discriminate;
      intros [= Hnil]; now apply DecimalPos.Unsigned.to_uint_nonnil in Hnil. }
  pose proof (Hparse z) as Hz. rewrite H, Hparse in Hz. now injection Hz.
Qed.

Lemma str_of_nat_inj (n n' : nat) : Py.str_of_nat n = Py.str_of_nat n' -> n = n'.
Proof.
  unfold Py.str_of_nat. intros H. apply DecimalNat.Unsigned.to_uint_inj.
  assert (Hnonnil : forall k, Nat.to_uint k <> Decimal.Nil).
  { intros k E. pose proof (DecimalNat.Unsigned.of_to k) as P.
    rewrite E in P. cbn in P. subst k. discriminate E. }
  pose proof (NilZero.usu _ (Hnonnil n)) as Hn.
  rewrite H, (NilZero.usu _ (Hnonnil n')) in Hn. now injection Hn.
Qed.

End NumberText.

(** ** Store-type names *)

Module TypeNames.

Import Types Notions.

(** Two texts that agree up to their first occurrence of a separator agree
    before it and after it. *)
Lemma split_at_sep (c : Ascii.ascii) (a b x y : string) :
  has_char c a = false -> has_char c b = false ->
  a +:+ String c x = b +:+ String c y -> a = b /\ x = y.
Proof.
  revert b. induction a as [|a0 a IH]; intros [|b0 b] Ha Hb H.
  - now injection H.
  - injection H as -> _. cbn [has_char] in Hb.
    now rewrite Ascii.eqb_refl in Hb.
  - injection H as <- _. cbn [has_char] in Ha.
    now rewrite Ascii.eqb_refl in Ha.
  - injection H as -> H. cbn [has_char] in Ha, Hb.
    apply orb_false_iff in Ha as [_ Ha], Hb as [_ Hb].
    destruct (IH b Ha Hb H) as [-> ->]. now split.
Qed.

Lemma append_length (a b : string) :
  String.length (a +:+ b) = (String.length a + String.length b)%nat.
Proof.
  induction a as [|x a IH]; [reflexivity |].
  change (S (String.length (a +:+ b)) = S (String.length a + String.length b)).
  now rewrite IH.
Qed.

Lemma append_cancel_r (a b c : string) : a +:+ c = b +:+ c -> a = b.
Proof.
  intros H.
  assert (Hlen : String.length a = String.length b).
  { apply (f_equal String.length) in H. rewrite !append_length in H. lia. }
  revert b H Hlen. induction a as [|x a IH]; intros [|y b] H Hlen;
    try discriminate Hlen; [reflexivity |].
  injection H as -> H. injection Hlen as Hlen. now rewrite (IH b H Hlen).
Qed.

Lemma str_of_Z_without (c : Ascii.ascii) (z : Z) :
  has_char c "-0123456789" = false -> has_char c (Py.str_of_Z z) = false.
Proof.
  intros Hc. destruct (has_char c (Py.str_of_Z z)) eqn:E; [| reflexivity].
  apply NumberText.str_of_Z_chars in E. congruence.
Qed.

(** Two types written alike are the same type. *)
Lemma ydb_type_text_inj (t t' : YDBType) : ydb_type t = ydb_type t' -> t = t'.
Proof.
  revert t'. induction t as [| | | | | | | | | | | p s | t IH]; intros t' H;
    destruct t' as [| | | | | | | | | | | p' s' | t'];
    try reflexivity;
    try (cbn [ydb_type String.append] in H; discriminate H).
  - cbn [ydb_type] in H. apply (inj (String.app "Decimal(")) in H.
    apply split_at_sep in H as [Hp H]; try (now apply str_of_Z_without).
    injection H as H.
    apply split_at_sep in H as [Hs _]; try (now apply str_of_Z_without).
    apply NumberText.str_of_Z_inj in Hp, Hs. now subst.
  - cbn [ydb_type] in H. apply (inj (String.app "Optional<")) in H.
    apply append_cancel_r in H. now rewrite (IH t' H).
Qed.

(** The store-type name determines the type: no two types of the namespace,
    whatever the parameters of [decimal] and the nesting of [Optional], are
    written alike in a schema or in a CREATE TABLE statement. *)
Theorem ydb_type_inj (t t' : YDBType) : ydb_type t = ydb_type t' <-> t = t'.
Proof. split; [apply ydb_type_text_inj | now intros ->]. Qed.

End TypeNames.

(** ** What the decorator binds *)

Module BindingFacts.

Import Types Decorator Notions Examples.

Section Binding.

Variable registry : list YDBType.

(** An attribute whose annotation does not pass the guard is no parameter of
    the record: the class that [wrap] returns refuses it as a keyword. *)
Theorem unbound_attribute_is_no_parameter (opts : Options) (shape : Shape)
    (cls : BoundClass) (name : string) (a : annotation) (kwargs : gmap string pyval) :
  wrap registry opts shape = Ok cls ->
  NoDup (keys (annotations shape)) ->
  (name, a) ∈ annotations shape ->
  _is_ydb_type registry a = false ->
  is_Some (kwargs !! name) ->
  (name ∉ keys (_ydb_fields cls))
  /\ construct cls kwargs = Raise TypeError_unexpected_keyword.
Proof.
  intros Hwrap Hnd Hin Hguard Hkw.
  assert (Hnot : name ∉ keys (_ydb_fields cls)).
  { destruct (DecoratorFacts.wrap_ok_inv _ _ _ _ Hwrap) as (P & Hrun & _).
    apply DecoratorFacts.collect_fields_keys in Hrun; [| exact Hnd].
    rewrite Hrun. simpl. clear Hrun Hwrap.
    induction (annotations shape) as [|[n t] items IH]; [now apply elem_of_nil in Hin |].
    simpl in Hnd. apply NoDup_cons in Hnd as [Hfresh Hnd].
    rewrite filter_cons. simpl.
    apply elem_of_cons in Hin as [[= <- <-]|Hin].
    - rewrite Hguard. intros Habs. apply Hfresh.
      apply list_elem_of_In, in_map_iff in Habs as (e & He & Hmem).
      apply list_elem_of_In, list_elem_of_filter in Hmem as [_ Hmem].
      rewrite <- He. apply list_elem_of_In, in_map, list_elem_of_In, Hmem.
    - destruct (_is_ydb_type registry t); [| now apply IH].
      simpl. intros Habs. apply elem_of_cons in Habs as [->|Habs]; [| now apply IH].
      apply Hfresh. apply list_elem_of_In. apply (in_map fst _ (n, a)).
      now apply list_elem_of_In. }
  split; [exact Hnot |].
  destruct (DecoratorFacts.wrap_dataclass_fields _ _ _ _ Hwrap) as (Hnames & _).
  unfold construct. destruct (dc_init cls).
  - rewrite bool_decide_eq_false_2; [reflexivity |].
    intros Hdom. apply Hnot. rewrite <- Hnames.
    apply (elem_of_list_to_set (C := gset string)). apply Hdom. now apply elem_of_dom.
  - rewrite bool_decide_eq_false_2; [reflexivity |].
    intros ->. rewrite lookup_empty in Hkw. now destruct Hkw.
Qed.

End Binding.

(** [unbound_attribute_is_no_parameter] at [mixed_shape] and its attribute
    [note: int]. *)
Lemma unbound_attribute_is_no_parameter_witness :
  exists cls,
    wrap empty_registry default_options mixed_shape = Ok cls
    /\ ("note" ∉ keys (_ydb_fields cls))
    /\ construct cls {[ "id" := VInt 1; "note" := VInt 2 ]}
       = Raise TypeError_unexpected_keyword.
Proof.
  eexists. split; [reflexivity |].
  apply (unbound_attribute_is_no_parameter empty_registry default_options mixed_shape _
           "note" (APy "int") {[ "id" := VInt 1; "note" := VInt 2 ]}).
  - reflexivity.
  - apply (bool_decide_unpack _). vm_compute. exact I.
  - apply list_elem_of_further, list_elem_of_here.
  - reflexivity.
  - eexists. vm_compute. reflexivity.
Defined.

End BindingFacts.

(** ** Records: construction, writing and reading *)

Module RecordFacts.

Import Types Decorator Notions Examples.

(** [get_ydb_value] does not depend on the field's type being optional: it
    is the null of the store for [None] and the type's converter otherwise. *)
Lemma get_ydb_value_store_value (field : YDBFieldInfo) (value : pyval) :
  get_ydb_value field value = store_value (field_ydb_type field) value.
Proof.
  unfold get_ydb_value, store_value.
  destruct value; try reflexivity; now destruct (is_Optional (field_ydb_type field)).
Qed.

Lemma odict_set_fresh {A} (d : list (string * A)) (k : string) (v : A) :
  k ∉ keys d -> odict_set d k v = (d ++ [(k, v)])%list.
Proof.
  induction d as [|[k' v'] d IH]; simpl; intros Hk; [reflexivity |].
  apply not_elem_of_cons in Hk as [Hne Hk].
  rewrite decide_False by congruence. now rewrite IH.
Qed.

(** The loop of [to_ydb_dict]: it stops at the first field that the record
    has no attribute for, and appends one entry per field otherwise. *)
Lemma to_ydb_dict_items_spec fields cls self result :
  NoDup (keys result ++ keys fields) ->
  to_ydb_dict_items fields cls self result =
    match find (fun e => negb (bool_decide (is_Some (getattr cls self e.1)))) fields with
    | Some e => AttributeError e.1
    | None =>
        Got (result ++ map (fun e => (e.1, store_value (field_ydb_type e.2)
                                             (default VNone (getattr cls self e.1))))
                           fields)%list
    end.
Proof.
  revert result. induction fields as [|[name field] fields IH]; intros result Hnd; simpl.
  - now rewrite app_nil_r.
  - destruct (getattr cls self name) as [value|] eqn:Hget; simpl; [| reflexivity].
    assert (Hfresh : name ∉ keys result).
    { apply NoDup_app in Hnd as (_ & Hdisj & _). intros Hin.
      apply (Hdisj name Hin), list_elem_of_here. }
    rewrite odict_set_fresh by exact Hfresh. rewrite IH.
    + destruct (find _ fields); [reflexivity |].
      now rewrite <- app_assoc, get_ydb_value_store_value.
    + unfold keys. rewrite map_app, <- app_assoc. exact Hnd.
Qed.

(** [to_ydb_dict] of any object of a class whose bound fields have distinct
    names: [AttributeError] for the first bound field that neither the object
    nor its class has an attribute for; otherwise one entry per bound field,
    in binding order, holding the null of the store when the attribute is
    [None], whether or not the field's type is optional, and the field's type
    applied to the attribute otherwise. *)
Theorem to_ydb_dict_spec (cls : BoundClass) (self : Instance) :
  NoDup (keys (_ydb_fields cls)) ->
  to_ydb_dict cls self =
    match find (fun e => negb (bool_decide (is_Some (getattr cls self e.1))))
               (_ydb_fields cls) with
    | Some e => AttributeError e.1
    | None =>
        Got (map (fun e => (e.1, store_value (field_ydb_type e.2)
                                   (default VNone (getattr cls self e.1))))
                 (_ydb_fields cls))
    end.
Proof. intros Hnd. unfold to_ydb_dict. now rewrite to_ydb_dict_items_spec. Qed.

(** [to_ydb_dict_spec] at [contact_class] and the record
    [id = 1, email = None]; without [email], the call raises. *)
Lemma to_ydb_dict_spec_witness :
  NoDup (keys (_ydb_fields contact_class))
  /\ to_ydb_dict contact_class {[ "id" := VInt 1; "email" := VNone ]}
     = Got [("id", YValue ydb_Int64 (VInt 1)); ("email", YNull)]
  /\ to_ydb_dict contact_class {[ "id" := VInt 1 ]} = AttributeError "email".
Proof.
  assert (Hnd : NoDup (keys (_ydb_fields contact_class)))
    by (apply (bool_decide_unpack _); vm_compute; exact I).
  split; [exact Hnd |]. split.
  - refine (eq_trans (to_ydb_dict_spec contact_class
                        {[ "id" := VInt 1; "email" := VNone ]} Hnd) _).
    vm_compute. reflexivity.
  - refine (eq_trans (to_ydb_dict_spec contact_class {[ "id" := VInt 1 ]} Hnd) _).
    vm_compute. reflexivity.
Defined.

End RecordFacts.

(** ** The schema and the CREATE TABLE statement *)

Module SchemaFacts.

Import Types Decorator Queries Notions.

(** The schema of a binding set at the first call. *)
Lemma get_ydb_schema_first (fields : list (string * YDBFieldInfo)) :
  (get_ydb_schema fields None).1
  = map (fun e => (e.1, ydb_type (field_ydb_type e.2))) fields.
Proof. simpl. apply map_ext. now intros [name field]. Qed.

(** The schema of a binding set, and its cache. On an unfilled cache
    [get_ydb_schema] returns, for each bound field in binding order, its name
    with the store-type name of its type, and fills the cache with it. The
    schema gives the bound fields back: two binding sets have the same schema
    exactly when they have the same names with the same types, in the same
    order. Once a call has filled the class attribute, every later call
    returns that schema, whatever the binding set has become. *)
Theorem get_ydb_schema_determines_fields (fields fields' : list (string * YDBFieldInfo)) :
  get_ydb_schema fields None
  = (map (fun e => (e.1, ydb_type (field_ydb_type e.2))) fields,
     Some (map (fun e => (e.1, ydb_type (field_ydb_type e.2))) fields))
  /\ ((get_ydb_schema fields None).1 = (get_ydb_schema fields' None).1 <->
      map (fun e => (e.1, field_ydb_type e.2)) fields
      = map (fun e => (e.1, field_ydb_type e.2)) fields')
  /\ get_ydb_schema fields' (get_ydb_schema fields None).2 = get_ydb_schema fields None.
Proof.
  split; [| split; [| reflexivity]].
  - unfold get_ydb_schema. rewrite <- (get_ydb_schema_first fields). reflexivity.
  - rewrite !get_ydb_schema_first. split.
    + revert fields'. induction fields as [|[n f] fields IH]; intros [|[n' f'] fields'];
        simpl; intros H; try discriminate H; [reflexivity |].
      injection H as -> Htype H. apply TypeNames.ydb_type_text_inj in Htype.
      now rewrite Htype, (IH fields' H).
    + intros H.
      apply (f_equal (map (fun e : string * YDBType => (e.1, ydb_type e.2)))) in H.
      now rewrite !map_map in H.
Qed.

Lemma columns_loop (ydb_fields : list (string * YDBFieldInfo)) (acc : list string) :
  fold_left (fun columns '(name, field) =>
               (columns ++ ["  " +:+ name +:+ " "
                              +:+ ydb_type (field_ydb_type field)])%list) ydb_fields acc
  = (acc ++ map column_line (get_ydb_schema ydb_fields None).1)%list.
Proof.
  revert acc; induction ydb_fields as [|[name field] fields IH]; intros acc.
  - simpl. now rewrite app_nil_r.
  - cbn [fold_left]. rewrite IH, <- app_assoc. reflexivity.
Qed.

Lemma indexes_loop (indexes : list (string * list string)) (acc : list string) :
  fold_left (fun index_definitions '(index_name, index_fields) =>
               let fields_str := String.concat ", " index_fields in
               (index_definitions
                  ++ ["  INDEX " +:+ index_name +:+ " GLOBAL ON ("
                        +:+ fields_str +:+ ")"])%list) indexes acc
  = (acc ++ map index_line indexes)%list.
Proof.
  revert acc; induction indexes as [|[index_name index_fields] indexes IH]; intros acc.
  - simpl. now rewrite app_nil_r.
  - cbn [fold_left]. rewrite IH, <- app_assoc. reflexivity.
Qed.

Lemma nonempty_nl (s : string) : nonempty (nl +:+ s) = true.
Proof. reflexivity. Qed.

(** The statement of [create_table_query]: one line per entry of the schema,
    joined with a comma and a line feed, then the PRIMARY KEY, PARTITION BY
    and index parts in this order, each after a comma and a line feed and
    each absent unless its argument holds something. The index lines are
    separated by a line feed alone, without a comma. *)
Theorem create_table_query_parts (table_name : string)
    (ydb_fields : list (string * YDBFieldInfo))
    (primary_key partition_by : option (list string))
    (indexes : option (list (string * list string))) :
  create_table_query table_name ydb_fields primary_key partition_by indexes =
    "CREATE TABLE `" +:+ table_name +:+ "` (" +:+ nl
      +:+ String.concat ("," +:+ nl) (map column_line (get_ydb_schema ydb_fields None).1)
      +:+ primary_key_part primary_key +:+ partition_part partition_by
      +:+ indexes_part indexes +:+ nl +:+ ")".
Proof.
  unfold create_table_query. rewrite columns_loop, app_nil_l.
  generalize (String.concat ("," +:+ nl) (map column_line (get_ydb_schema ydb_fields None).1)).
  intros columns_str.
  destruct primary_key as [[|k ks]|], partition_by as [[|p ps]|], indexes as [[|i rest]|];
    cbn [Py.truthy default primary_key_part partition_part indexes_part];
    rewrite ?indexes_loop, ?app_nil_l, ?nonempty_nl; cbn [nonempty];
    same_text.
Qed.

End SchemaFacts.

(** ** Query parameters *)

Module ParamsFacts.

Import Decorator Queries Notions.

(** The loop [params[f(key)] = value] over the items of a dictionary. *)
Lemma insert_loop (f : string -> string) (items : list (string * pyval))
    (params : gmap string pyval) :
  fold_left (fun params '(key, value) => <[f key := value]> params) items params
  = list_to_map (reverse (map (fun e => (f e.1, e.2)) items)) ∪ params.
Proof.
  revert params; induction items as [|[key value] items IH]; intros params.
  - simpl. now rewrite (left_id_L ∅ (∪)).
  - cbn [fold_left map]. rewrite IH, reverse_cons, list_to_map_app. simpl.
    rewrite <- (assoc_L (∪)). f_equal.
    now rewrite insert_union_singleton_l, insert_empty.
Qed.

Lemma insert_loop_id (items : list (string * pyval)) (params : gmap string pyval) :
  fold_left (fun params '(key, value) => <[key := value]> params) items params
  = dict_of items ∪ params.
Proof.
  rewrite (insert_loop (fun key => key)). unfold dict_of. do 3 f_equal.
  rewrite <- (map_id items) at 2. apply map_ext. now intros [key value].
Qed.

(** The conditions loop, when no value is a list or a tuple. *)
Lemma where_loop_scalar (conditions : list (string * pyval)) (params : gmap string pyval) :
  Forall (fun c => scalar c.2 = true) conditions ->
  fold_left (fun params '(key, value) =>
               match value with
               | VList items | VTuple items =>
                   fold_left (fun params '(i, v) => <[indexed key i := v]> params)
                             (enumerate items) params
               | _ => <[key := value]> params
               end) conditions params
  = fold_left (fun params '(key, value) => <[key := value]> params) conditions params.
Proof.
  revert params; induction conditions as [|[key value] conditions IH]; intros params Hall;
    [reflexivity |].
  apply Forall_cons in Hall as [Hvalue Hall]. cbn [fold_left]. rewrite <- IH by exact Hall.
  now destruct value.
Qed.

(** The parameters of a single dictionary and of conditions that compare
    with plain values: the dictionary of the conditions over the dictionary
    of the data. A name that occurs in both is bound to the condition's
    value, so that a statement that mentions [$name] both in its SET clause
    and in its WHERE clause receives the condition's value in both places. *)
Theorem prepare_params_conditions_over_data (data : list (string * pyval))
    (where_ : option (list (string * pyval))) :
  Forall (fun c => scalar c.2 = true) (default [] where_) ->
  prepare_params (DataDict data) where_ = dict_of (default [] where_) ∪ dict_of data
  /\ forall name value,
       dict_of (default [] where_) !! name = Some value ->
       prepare_params (DataDict data) where_ !! name = Some value.
Proof.
  intros Hall.
  assert (Heq : prepare_params (DataDict data) where_
                = dict_of (default [] where_) ∪ dict_of data).
  { unfold prepare_params. rewrite insert_loop_id, (right_id_L ∅ (∪)).
    destruct where_ as [[|c cs]|]; cbn [Py.truthy default].
    - unfold dict_of at 2. simpl. now rewrite (left_id_L ∅ (∪)).
    - now rewrite where_loop_scalar, insert_loop_id.
    - unfold dict_of at 2. simpl. now rewrite (left_id_L ∅ (∪)). }
  split; [exact Heq |].
  intros name value Hname. rewrite Heq. now apply lookup_union_Some_l.
Qed.

(** Inserting keeps what is bound. *)
Lemma insert_loop_bound (f : string -> string) (items : list (string * pyval))
    (params : gmap string pyval) (p : string) :
  is_Some (params !! p) \/ p ∈ map (fun e => f e.1) items ->
  is_Some (fold_left (fun params '(key, value) => <[f key := value]> params) items params
             !! p).
Proof.
  revert params; induction items as [|[key value] items IH]; intros params; simpl.
  - intros [H|H]; [exact H | now apply elem_of_nil in H].
  - intros [H|H]; apply IH.
    + left. destruct (decide (f key = p)) as [->|Hne];
        [rewrite lookup_insert_eq; eauto | now rewrite lookup_insert_ne].
    + apply elem_of_cons in H as [->|H]; [| now right].
      left. rewrite lookup_insert_eq. eauto.
Qed.

Lemma enumerate_loop_bound (key : string) (items : list pyval)
    (params : gmap string pyval) (p : string) :
  is_Some (params !! p) \/ p ∈ map (indexed key) (seq 0 (length items)) ->
  is_Some (fold_left (fun params '(i, v) => <[indexed key i := v]> params)
                     (enumerate items) params !! p).
Proof.
  unfold enumerate. generalize 0%nat as s. intros s.
  revert s params; induction items as [|v items IH]; intros s params; simpl.
  - intros [H|H]; [exact H | now apply elem_of_nil in H].
  - intros [H|H]; apply IH.
    + left. destruct (decide (indexed key s = p)) as [->|Hne];
        [rewrite lookup_insert_eq; eauto | now rewrite lookup_insert_ne].
    + apply elem_of_cons in H as [->|H]; [| now right].
      left. rewrite lookup_insert_eq. eauto.
Qed.

Lemma where_loop_bound (conditions : list (string * pyval))
    (params : gmap string pyval) (p : string) :
  is_Some (params !! p) \/ (exists c, c ∈ conditions /\ p ∈ placeholders c) ->
  is_Some (fold_left (fun params '(key, value) =>
                        match value with
                        | VList items | VTuple items =>
                            fold_left (fun params '(i, v) => <[indexed key i := v]> params)
                                      (enumerate items) params
                        | _ => <[key := value]> params
                        end) conditions params !! p).
Proof.
  revert params; induction conditions as [|[key value] conditions IH]; intros params.
  - intros [H|(c & Hc & _)]; [exact H | now apply elem_of_nil in Hc].
  - intros H. cbn [fold_left]. apply IH.
    assert (Hkeep : forall q : gmap string pyval,
              is_Some (q !! p) -> is_Some (<[key := value]> q !! p)).
    { intros q Hq. destruct (decide (key = p)) as [->|Hne];
        [rewrite lookup_insert_eq; eauto | now rewrite lookup_insert_ne]. }
    destruct H as [H|(c & Hc & Hp)].
    + left. destruct value; try (now apply Hkeep);
        apply enumerate_loop_bound; now left.
    + apply elem_of_cons in Hc as [->|Hc]; [| right; eauto].
      left. unfold placeholders in Hp. simpl in Hp.
      destruct value; try (apply list_elem_of_singleton in Hp as ->;
                           rewrite lookup_insert_eq; eauto);
        try (apply enumerate_loop_bound; now right).
      now apply elem_of_nil in Hp.
Qed.

(** The clause of a condition mentions the parameters [placeholders] lists,
    and [prepare_params] binds every one of them, whatever the data: each
    [$name] of the WHERE clause that [generate_where_clause] writes for the
    conditions has a value among the parameters prepared for the same
    conditions. *)
Theorem where_placeholders_are_bound (data : params_data)
    (conditions : list (string * pyval)) (c : string * pyval) :
  c ∈ conditions ->
  condition_clause c.1 c.2 =
    c.1 +:+ match c.2 with
            | VNone => " IS NULL"
            | VList _ | VTuple _ =>
                " IN (" +:+ String.concat ", " (map (fun p => "$" +:+ p) (placeholders c))
                  +:+ ")"
            | _ => " = " +:+ String.concat ", " (map (fun p => "$" +:+ p) (placeholders c))
            end
  /\ forall p, p ∈ placeholders c ->
               is_Some (prepare_params data (Some conditions) !! p).
Proof.
  intros Hc. split.
  - destruct c as [field value]. unfold condition_clause, placeholders. simpl.
    destruct value; try reflexivity; now rewrite map_map.
  - intros p Hp. unfold prepare_params.
    destruct conditions as [|c0 cs]; [now apply elem_of_nil in Hc |].
    cbn [Py.truthy default]. apply where_loop_bound. right. eauto.
Qed.

(** The text of a number has no underscore. *)
Lemma str_of_nat_no_underscore (i : nat) : has_char "_" (Py.str_of_nat i) = false.
Proof.
  unfold Py.str_of_nat. destruct (Nat.to_uint i) as [|d|d|d|d|d|d|d|d|d|d] eqn:E;
    [reflexivity | ..]; rewrite <- E;
    destruct (has_char "_" (NilZero.string_of_uint (Nat.to_uint i))) eqn:Hc; try reflexivity;
    rewrite E in Hc; apply (NumberText.uint_chars _ "_") in Hc; discriminate Hc.
Qed.

Lemma has_char_app (c : Ascii.ascii) (a b : string) :
  has_char c (a +:+ b) = has_char c a || has_char c b.
Proof.
  induction a as [|x a IH]; [reflexivity |].
  change (Ascii.eqb c x || has_char c (a +:+ b)
          = Ascii.eqb c x || has_char c a || has_char c b).
  now rewrite IH, orb_assoc.
Qed.

(** Two texts that agree from their last separator on agree before it. *)
Lemma split_at_last_sep (c : Ascii.ascii) (a b x y : string) :
  has_char c x = false -> has_char c y = false ->
  a +:+ String c x = b +:+ String c y -> a = b /\ x = y.
Proof.
  intros Hx Hy. revert b. induction a as [|a0 a IH]; intros [|b0 b] H.
  - now injection H.
  - injection H as _ H. rewrite H, has_char_app in Hx. cbn [has_char] in Hx.
    rewrite Ascii.eqb_refl, orb_true_r in Hx. discriminate Hx.
  - injection H as _ H. rewrite <- H, has_char_app in Hy. cbn [has_char] in Hy.
    rewrite Ascii.eqb_refl, orb_true_r in Hy. discriminate Hy.
  - injection H as -> H. destruct (IH b H) as [-> ->]. now split.
Qed.

(** The parameter name of a key in the [i]-th dictionary of a batch gives
    both back. *)
Lemma indexed_inj (key key' : string) (i j : nat) :
  indexed key i = indexed key' j -> key = key' /\ i = j.
Proof.
  unfold indexed. intros H.
  apply split_at_last_sep in H as [-> H]; try apply str_of_nat_no_underscore.
  now apply NumberText.str_of_nat_inj in H.
Qed.

Lemma lookup_indexed_same (i : nat) (items : list (string * pyval)) (key : string) :
  (list_to_map (map (fun e => (indexed e.1 i, e.2)) items) : gmap string pyval)
    !! indexed key i
  = (list_to_map items : gmap string pyval) !! key.
Proof.
  induction items as [|[k v] items IH]; [reflexivity |]. simpl.
  destruct (decide (k = key)) as [->|Hne].
  - now rewrite !lookup_insert_eq.
  - rewrite !lookup_insert_ne; [exact IH | exact Hne |].
    intros Heq. now apply indexed_inj in Heq as [? _].
Qed.

Lemma lookup_indexed_other (i j : nat) (items : list (string * pyval)) (key : string) :
  i <> j ->
  (list_to_map (map (fun e => (indexed e.1 i, e.2)) items) : gmap string pyval)
    !! indexed key j = None.
Proof.
  intros Hne. induction items as [|[k v] items IH]; [reflexivity |]. simpl.
  rewrite lookup_insert_ne; [exact IH |].
  intros Heq. now apply indexed_inj in Heq as [_ ?].
Qed.

Lemma reverse_map {A B} (f : A -> B) (l : list A) :
  reverse (map f l) = map f (reverse l).
Proof.
  induction l as [|x l IH]; [reflexivity |].
  simpl. now rewrite !reverse_cons, map_app, IH.
Qed.

Lemma batch_loop (rows : list (list (string * pyval))) (s : nat)
    (params : gmap string pyval) (key : string) (i : nat) :
  fold_left (fun params '(i, item) =>
               fold_left (fun params '(key, value) => <[indexed key i := value]> params)
                         item params)
            (combine (seq s (length rows)) rows) params !! indexed key i
  = match (if decide (s <= i)%nat then rows !! (i - s)%nat else None)
            ≫= (fun row => dict_of row !! key) with
    | Some v => Some v
    | None => params !! indexed key i
    end.
Proof.
  revert s params; induction rows as [|row rows IH]; intros s params.
  - simpl. now destruct (decide (s <= i)%nat).
  - cbn [length seq combine fold_left]. rewrite IH.
    rewrite (insert_loop (fun key => indexed key s)), reverse_map.
    destruct (decide (S s <= i)%nat) as [Hlt|Hge].
    + rewrite decide_True by lia.
      replace (i - s)%nat with (S (i - S s)) by lia. cbn [lookup list_lookup].
      destruct (rows !! (i - S s)%nat ≫= _); [reflexivity |].
      rewrite lookup_union_r; [reflexivity |].
      apply lookup_indexed_other. lia.
    + cbn [mbind option_bind]. destruct (decide (s <= i)%nat) as [Hle|Hlt].
      * assert (i = s) as -> by lia. rewrite Nat.sub_diag. cbn [lookup list_lookup mbind option_bind].
        unfold dict_of. rewrite lookup_union, lookup_indexed_same.
        destruct (list_to_map (reverse row) !! key), (params !! indexed key s); reflexivity.
      * cbn [mbind option_bind]. rewrite lookup_union_r; [reflexivity |].
        apply lookup_indexed_other. lia.
Qed.

(** The parameters of a batch: the name [key_i] is bound to the value of
    [key] in the [i]-th dictionary of the list, and to nothing when that
    dictionary lacks [key] or the list is shorter. No two items of a batch
    share a parameter name, whatever the keys. *)
Theorem prepare_params_batch (rows : list (list (string * pyval)))
    (key : string) (i : nat) :
  prepare_params (DataList rows) None !! indexed key i
  = rows !! i ≫= (fun row => dict_of row !! key).
Proof.
  unfold prepare_params, enumerate. cbn [Py.truthy]. rewrite batch_loop.
  rewrite decide_True by lia. rewrite Nat.sub_0_r, lookup_empty.
  now destruct (rows !! i ≫= _).
Qed.

(** [prepare_params_conditions_over_data] at the data [{"x": 1}] and the
    conditions [{"x": 2}]. *)
Lemma prepare_params_conditions_over_data_witness :
  prepare_params (DataDict [("x", VInt 1)]) (Some [("x", VInt 2)])
  = dict_of [("x", VInt 2)] ∪ dict_of [("x", VInt 1)]
  /\ forall name value,
       dict_of [("x", VInt 2)] !! name = Some value ->
       prepare_params (DataDict [("x", VInt 1)]) (Some [("x", VInt 2)]) !! name = Some value.
Proof.
  apply (prepare_params_conditions_over_data [("x", VInt 1)] (Some [("x", VInt 2)])).
  repeat constructor.
Defined.

(** [where_placeholders_are_bound] at the conditions
    [{"id": [1, 2], "name": "a"}] and their first item. *)
Lemma where_placeholders_are_bound_witness :
  condition_clause "id" (VList [VInt 1; VInt 2]) = "id IN ($id_0, $id_1)"
  /\ forall p, p ∈ placeholders ("id", VList [VInt 1; VInt 2]) ->
       is_Some (prepare_params (DataDict [])
                  (Some [("id", VList [VInt 1; VInt 2]); ("name", VStr "a")]) !! p).
Proof.
  apply (where_placeholders_are_bound (DataDict [])
           [("id", VList [VInt 1; VInt 2]); ("name", VStr "a")]
           ("id", VList [VInt 1; VInt 2])).
  apply list_elem_of_here.
Defined.

End ParamsFacts.

(** ** Rows and statements *)

Module RowFacts.

Import Types Decorator Queries Notions Examples.



(** The INSERT statement of a binding set names, as columns and as
    parameters and in the same order, the keys of the dictionary that
    [to_ydb_dict] returns for a record of the class. *)
Theorem insert_query_names_written_keys (table_name : string) (cls : BoundClass)
    (self : Instance) (written : list (string * ydbvalue)) :
  NoDup (keys (_ydb_fields cls)) ->
  to_ydb_dict cls self = Got written ->
  insert_query table_name (_ydb_fields cls) None =
    "INSERT INTO `" +:+ table_name +:+ "` (" +:+ String.concat ", " (keys written)
      +:+ ") VALUES (" +:+ String.concat ", " (map (fun col => "$" +:+ col) (keys written))
      +:+ ")".
Proof.
  intros Hnd Hwritten. unfold to_ydb_dict in Hwritten.
  rewrite RecordFacts.to_ydb_dict_items_spec in Hwritten by (simpl; exact Hnd).
  destruct (find _ (_ydb_fields cls)); [discriminate |].
  injection Hwritten as <-. simpl. unfold keys at 1 2. rewrite map_map. simpl.
  reflexivity.
Qed.


(** [insert_query_names_written_keys] at [contact_class]. *)
Lemma insert_query_names_written_keys_witness :
  insert_query "t" (_ydb_fields contact_class) None
  = "INSERT INTO `t` (id, email) VALUES ($id, $email)".
Proof.
  refine (eq_trans (insert_query_names_written_keys "t" contact_class
                      {[ "id" := VInt 1; "email" := VStr "a" ]}
                      [("id", YValue ydb_Int64 (VInt 1)); ("email", YValue ydb_Utf8 (VStr "a"))]
                      _ _) _).
  - apply (bool_decide_unpack _). vm_compute. exact I.
  - vm_compute. reflexivity.
  - reflexivity.
Defined.

End RowFacts.
